(** * Grapevine MCP: the tool adapter over the Staffbase REST client

    A shallow embedding of [grapevine_mcp/staffbase_client.py] and
    [grapevine_mcp/server.py], and the properties of the tool-call
    boundary proved over it.

    Conventions of the model.
    - A Python value that travels through the adapter is a parsed JSON
      document or a tool argument: [pyval].  A [dict] is an association
      list in insertion order (the order [iter] walks); a lookup takes the
      first binding of a key.  Numbers are integers; a [str] is a [string]
      whose characters are the code points below 256.
    - An exception is a value of [exn]; code that may raise returns
      [res A].  Messages of interpreter-raised exceptions are CPython's
      (3.12 and later).
    - The HTTP round trip is a function [upstream] from the request to
      what came back; every request that is sent is appended to the
      world's [requests], every record handed to the logger to [logged].
    - The recursion depth the interpreter leaves to the walk of the
      channel tree is a parameter, [recursion_depth]: the number of
      nested calls of [_extract_channels] the call stack still has room
      for when a tool is dispatched.  A walk that needs more raises
      [RecursionError].
    - A binary download has its own round trip, [upstream_raw], which
      answers with bytes. *)

From Stdlib Require Import ZArith String Ascii List Bool Lia.
From stdpp Require Import gmap strings pretty list.

Set Warnings "-register-all".

(** ** Python values and exceptions *)

Module Py.

Inductive pyval : Type :=
| VNone
| VBool (b : bool)
| VInt (n : Z)
| VStr (s : string)
| VList (xs : list pyval)
| VDict (kvs : list (string * pyval)).

(** The exceptions the adapter can meet.  [KeyError] carries the [repr] of
    the missing key, which is what [str] of the exception shows. *)
Inductive exn : Type :=
| RuntimeError (msg : string)
| KeyError (key_repr : string)
| AttributeError (msg : string)
| TypeError (msg : string)
| RecursionError (msg : string)
| JSONDecodeError (msg : string)
| HTTPStatusError (msg : string)
| TransportError (msg : string).

(** [str(exc)] *)
Definition str_exc (e : exn) : string :=
  match e with
  | RuntimeError m | KeyError m | AttributeError m | TypeError m
  | RecursionError m | JSONDecodeError m | HTTPStatusError m
  | TransportError m => m
  end.

Inductive res (A : Type) : Type :=
| Ok (a : A)
| Raise (e : exn).
Arguments Ok {A} a.
Arguments Raise {A} e.

Definition res_bind {A B} (c : res A) (k : A -> res B) : res B :=
  match c with
  | Ok a => k a
  | Raise e => Raise e
  end.

Notation "'do' x <- c ; k" := (res_bind c (fun x => k))
  (at level 10, x name, c at level 100, k at level 200).

(** [for x in xs: s = body(x, s)], stopping at the first exception. *)
Fixpoint for_each {A S} (xs : list A) (s : S) (body : A -> S -> res S) : res S :=
  match xs with
  | [] => Ok s
  | x :: rest => do s' <- body x s; for_each rest s' body
  end.

(** ** Characters and text *)

Definition dq : string := String "034"%char "".
Definition sq : string := String "039"%char "".
Definition bslash : string := String "092"%char "".

Definition hex_digit (n : nat) : ascii :=
  match n with
  | 0 => "0" | 1 => "1" | 2 => "2" | 3 => "3" | 4 => "4" | 5 => "5"
  | 6 => "6" | 7 => "7" | 8 => "8" | 9 => "9" | 10 => "a" | 11 => "b"
  | 12 => "c" | 13 => "d" | 14 => "e" | _ => "f"
  end%char.

(** Two lower-case hexadecimal digits of a code point below 256. *)
Definition hex2 (c : ascii) : string :=
  let n := nat_of_ascii c in
  String (hex_digit (n / 16)) (String (hex_digit (n mod 16)) "").

Fixpoint concat_map (f : ascii -> string) (s : string) : string :=
  match s with
  | EmptyString => ""
  | String c rest => f c +:+ concat_map f rest
  end.

Fixpoint join (sep : string) (parts : list string) : string :=
  match parts with
  | [] => ""
  | [p] => p
  | p :: rest => p +:+ sep +:+ join sep rest
  end.

Fixpoint spaces (n : nat) : string :=
  match n with
  | O => ""
  | S n' => String " "%char (spaces n')
  end.

Fixpoint contains_char (c : ascii) (s : string) : bool :=
  match s with
  | EmptyString => false
  | String c' rest => Ascii.eqb c c' || contains_char c rest
  end.

(** [s.rstrip("/")] *)
Fixpoint rstrip_slash (s : string) : string :=
  match s with
  | EmptyString => ""
  | String c rest =>
      match rstrip_slash rest with
      | EmptyString => if Ascii.eqb c "/"%char then "" else String c ""
      | kept => String c kept
      end
  end.

(** [s[:n]] for [n >= 0] on text and on lists. *)
Definition str_take (n : nat) (s : string) : string := String.substring 0 n s.

(** [xs[:n]] for any integer [n]: a negative bound counts from the end. *)
Definition slice_upto {A} (n : Z) (xs : list A) : list A :=
  if (n <? 0)%Z then take (length xs - Z.to_nat (- n)) xs
  else take (Z.to_nat n) xs.

Definition str_slice_upto (n : Z) (s : string) : string :=
  if (n <? 0)%Z then str_take (String.length s - Z.to_nat (- n)) s
  else str_take (Z.to_nat n) s.

(** ** [repr] and [str] of a value *)

(** The escape [repr] gives one character inside quotes of kind [quote]. *)
Definition repr_char (quote : ascii) (c : ascii) : string :=
  let n := nat_of_ascii c in
  if Ascii.eqb c quote || Ascii.eqb c "092"%char then bslash +:+ String c ""
  else if n =? 9 then bslash +:+ "t"
  else if n =? 10 then bslash +:+ "n"
  else if n =? 13 then bslash +:+ "r"
  else if (n <? 32) || (n =? 127) then bslash +:+ "x" +:+ hex2 c
  else if n <? 127 then String c ""
  else if (n <=? 160) || (n =? 173) then bslash +:+ "x" +:+ hex2 c
  else String c "".

(** [repr(s)] of a [str]: single quotes, unless the text holds a single
    quote and no double quote. *)
Definition repr_str (s : string) : string :=
  let quote :=
    if contains_char "039"%char s && negb (contains_char "034"%char s)
    then "034"%char else "039"%char in
  String quote "" +:+ concat_map (repr_char quote) s +:+ String quote "".

Fixpoint repr (v : pyval) : string :=
  match v with
  | VNone => "None"
  | VBool true => "True"
  | VBool false => "False"
  | VInt n => pretty n
  | VStr s => repr_str s
  | VList xs => "[" +:+ join ", " (map repr xs) +:+ "]"
  | VDict kvs =>
      "{" +:+ join ", " (map (fun kv => repr_str (fst kv) +:+ ": " +:+ repr (snd kv)) kvs)
          +:+ "}"
  end.

(** [str(v)], which is what an f-string substitutes. *)
Definition str (v : pyval) : string :=
  match v with
  | VStr s => s
  | _ => repr v
  end.

(** ** Operations of the interpreter on values *)

Definition type_name (v : pyval) : string :=
  match v with
  | VNone => "NoneType"
  | VBool _ => "bool"
  | VInt _ => "int"
  | VStr _ => "str"
  | VList _ => "list"
  | VDict _ => "dict"
  end.

(** Truth value: [None], [False], [0], and empty text, list and dict are
    false. *)
Definition truthy (v : pyval) : bool :=
  match v with
  | VNone => false
  | VBool b => b
  | VInt n => negb (n =? 0)%Z
  | VStr s => negb (String.eqb s "")
  | VList xs => match xs with [] => false | _ => true end
  | VDict kvs => match kvs with [] => false | _ => true end
  end.

Definition isinstance_dict (v : pyval) : bool :=
  match v with VDict _ => true | _ => false end.

Definition isinstance_list (v : pyval) : bool :=
  match v with VList _ => true | _ => false end.

(** [v == s] for a text constant [s]. *)
Definition eq_str (v : pyval) (s : string) : bool :=
  match v with VStr s' => String.eqb s' s | _ => false end.

(** [a or b] *)
Definition or_else (a b : pyval) : pyval := if truthy a then a else b.

Section dict_find.
Context {A : Type} (k : string) (found : pyval -> A) (missing : A).

(** The first binding of [k], handed to [found]. *)
Fixpoint dict_find (kvs : list (string * pyval)) : A :=
  match kvs with
  | [] => missing
  | (k', v) :: rest => if String.eqb k k' then found v else dict_find rest
  end.
End dict_find.

Definition dict_lookup (kvs : list (string * pyval)) (k : string) : option pyval :=
  dict_find k Some None kvs.

(** [d.get(k, dflt)] on a [dict] whose type is known. *)
Definition dict_get (kvs : list (string * pyval)) (k : string) (dflt : pyval) : pyval :=
  default dflt (dict_lookup kvs k).

Definition no_attribute (v : pyval) (attr : string) : exn :=
  AttributeError (sq +:+ type_name v +:+ sq +:+ " object has no attribute "
                  +:+ sq +:+ attr +:+ sq).

(** [v.get(k, dflt)] on any value: only a [dict] has the method. *)
Definition get (v : pyval) (k : string) (dflt : pyval) : res pyval :=
  match v with
  | VDict kvs => Ok (dict_get kvs k dflt)
  | _ => Raise (no_attribute v "get")
  end.

(** [v.get(key, dflt)] where the key is itself a value.  The keys of a
    parsed document are text, so no other hashable key is ever found. *)
Definition get_key (v : pyval) (key : pyval) (dflt : pyval) : res pyval :=
  match v with
  | VDict kvs =>
      match key with
      | VStr k => Ok (dict_get kvs k dflt)
      | VList _ | VDict _ =>
          Raise (TypeError ("unhashable type: " +:+ sq +:+ type_name key +:+ sq))
      | _ => Ok dflt
      end
  | _ => Raise (no_attribute v "get")
  end.

Definition not_subscriptable (v : pyval) : exn :=
  TypeError (sq +:+ type_name v +:+ sq +:+ " object is not subscriptable").

(** [v[k]] for a text constant [k]. *)
Definition subscript (v : pyval) (k : string) : res pyval :=
  match v with
  | VDict kvs =>
      match dict_lookup kvs k with
      | Some x => Ok x
      | None => Raise (KeyError (repr_str k))
      end
  | VList _ => Raise (TypeError "list indices must be integers or slices, not str")
  | VStr _ =>
      Raise (TypeError ("string indices must be integers, not " +:+ sq +:+ "str" +:+ sq))
  | _ => Raise (not_subscriptable v)
  end.

Fixpoint chars (s : string) : list pyval :=
  match s with
  | EmptyString => []
  | String c rest => VStr (String c "") :: chars rest
  end.

(** The elements [for x in v] walks. *)
Definition iterate (v : pyval) : res (list pyval) :=
  match v with
  | VList xs => Ok xs
  | VDict kvs => Ok (map (fun kv => VStr (fst kv)) kvs)
  | VStr s => Ok (chars s)
  | _ => Raise (TypeError (sq +:+ type_name v +:+ sq +:+ " object is not iterable"))
  end.

(** [next(iter(v), None)] *)
Definition first_or_none (v : pyval) : res pyval :=
  do xs <- iterate v; Ok (hd VNone xs).

(** The bound of a slice: [None], or a value with [__index__]. *)
Definition slice_bound (v : pyval) : res (option Z) :=
  match v with
  | VNone => Ok None
  | VInt n => Ok (Some n)
  | VBool b => Ok (Some (if b then 1 else 0)%Z)
  | _ => Raise (TypeError
                  "slice indices must be integers or None or have an __index__ method")
  end.

(** [v[:n]] for an integer constant [n]. *)
Definition slice_const (v : pyval) (n : Z) : res pyval :=
  match v with
  | VStr s => Ok (VStr (str_slice_upto n s))
  | VList xs => Ok (VList (slice_upto n xs))
  | VDict _ => Raise (KeyError ("slice(None, " +:+ pretty n +:+ ", None)"))
  | _ => Raise (not_subscriptable v)
  end.

(** [xs[:bound]] on a list. *)
Definition list_slice (xs : list pyval) (bound : pyval) : res (list pyval) :=
  do b <- slice_bound bound;
  Ok (match b with None => xs | Some n => slice_upto n xs end).

End Py.

(** ** [json.dumps] *)

Module Json.
Import Py.

Definition newline : string := String "010"%char "".

(** One character of a JSON string with [ensure_ascii] on. *)
Definition escape_char (c : ascii) : string :=
  let n := nat_of_ascii c in
  if n =? 34 then bslash +:+ dq
  else if n =? 92 then bslash +:+ bslash
  else if n =? 10 then bslash +:+ "n"
  else if n =? 13 then bslash +:+ "r"
  else if n =? 9 then bslash +:+ "t"
  else if n =? 8 then bslash +:+ "b"
  else if n =? 12 then bslash +:+ "f"
  else if (n <? 32) || (126 <? n) then bslash +:+ "u00" +:+ hex2 c
  else String c "".

Definition encode_str (s : string) : string :=
  dq +:+ concat_map escape_char s +:+ dq.

(** The line break and indentation before an item at nesting [level];
    nothing when no indentation was asked for. *)
Definition newline_indent (indent : option nat) (level : nat) : string :=
  match indent with
  | None => ""
  | Some n => newline +:+ spaces (n * level)
  end.

Definition item_separator (indent : option nat) (level : nat) : string :=
  match indent with
  | None => ", "
  | Some _ => "," +:+ newline_indent indent level
  end.

Fixpoint encode (indent : option nat) (level : nat) (v : pyval) : string :=
  match v with
  | VNone => "null"
  | VBool true => "true"
  | VBool false => "false"
  | VInt n => pretty n
  | VStr s => encode_str s
  | VList [] => "[]"
  | VList xs =>
      "[" +:+ newline_indent indent (S level)
          +:+ join (item_separator indent (S level)) (map (encode indent (S level)) xs)
          +:+ newline_indent indent level +:+ "]"
  | VDict [] => "{}"
  | VDict kvs =>
      "{" +:+ newline_indent indent (S level)
          +:+ join (item_separator indent (S level))
                (map (fun kv => encode_str (fst kv) +:+ ": " +:+ encode indent (S level) (snd kv))
                     kvs)
          +:+ newline_indent indent level +:+ "}"
  end.

(** [json.dumps(v)] and [json.dumps(v, indent=n)].  Every value of the
    model is serializable, so the [default=] hook is never called. *)
Definition dumps (v : pyval) (indent : option nat) : string := encode indent 0 v.

End Json.

(** ** The HTTP round trip and the world it changes *)

Module Http.
Import Py.

Record request : Type := {
  url : string;
  headers : list (string * string);
  params : option (list (string * pyval));
  timeout : Z
}.

(** What one GET comes back with. *)
Inductive reply : Type :=
| ReplyJson (body : pyval)          (* 2xx, and the body parses *)
| ReplyNotJson (msg : string)       (* 2xx, and [resp.json()] raises *)
| ReplyStatus (msg : string)        (* not 2xx: [raise_for_status] raises *)
| ReplyFailed (msg : string).       (* no response: network error or timeout *)

Record world : Type := {
  requests : list request;
  logged : list string
}.

Definition world0 : world := {| requests := []; logged := [] |}.

Definition io (A : Type) : Type := world -> res A * world.

Definition io_ret {A} (a : A) : io A := fun w => (Ok a, w).

Definition io_bind {A B} (c : io A) (k : A -> io B) : io B :=
  fun w =>
    match c w with
    | (Ok a, w') => k a w'
    | (Raise e, w') => (Raise e, w')
    end.

Definition lift {A} (r : res A) : io A := fun w => (r, w).

Definition send (rq : request) : io unit :=
  fun w => (Ok tt, {| requests := requests w ++ [rq]; logged := logged w |}).

Definition log (line : string) (w : world) : world :=
  {| requests := requests w; logged := logged w ++ [line] |}.

End Http.

Notation "'perform' x <- c ; k" := (Http.io_bind c (fun x => k))
  (at level 10, x name, c at level 100, k at level 200).

(** ** staffbase_client.py *)

Module Client.
Import Py Http.

(** Seconds. *)
Definition _DEFAULT_TIMEOUT : Z := 30.

Record StaffbaseClient : Type := {
  _base_url : string;
  _headers : list (string * string);
  _timeout : Z
}.

Definition __init__ (base_url api_key : string) : StaffbaseClient :=
  {| _base_url := rstrip_slash base_url;
     _headers := [("Authorization", "Basic " +:+ api_key)];
     _timeout := _DEFAULT_TIMEOUT |}.

(** [data.get("data", data) if isinstance(data, dict) else data] *)
Definition unwrap (data : pyval) : pyval :=
  match data with
  | VDict kvs => dict_get kvs "data" data
  | _ => data
  end.

(** [resp.raise_for_status(); return resp.json()], and the failure of the
    request itself. *)
Definition response (r : reply) : res pyval :=
  match r with
  | ReplyJson body => Ok body
  | ReplyNotJson msg => Raise (JSONDecodeError msg)
  | ReplyStatus msg => Raise (HTTPStatusError msg)
  | ReplyFailed msg => Raise (TransportError msg)
  end.

Section Upstream.
Variable upstream : request -> reply.

Definition _get (self : StaffbaseClient) (path : string)
    (params : option (list (string * pyval))) : io pyval :=
  let rq := {| url := _base_url self +:+ path;
               headers := _headers self;
               params := params;
               timeout := _timeout self |} in
  perform _ <- send rq;
  lift (response (upstream rq)).

Definition list_spaces (self : StaffbaseClient) (include_hidden : bool) : io pyval :=
  let params := [("includeHidden", VStr (if include_hidden then "true" else "false"))] in
  perform data <- _get self "/api/spaces" (Some params);
  io_ret (unwrap data).

Definition get_global_posts (self : StaffbaseClient) (limit offset : pyval) : io pyval :=
  let params := [("limit", limit); ("offset", offset)] in
  perform data <- _get self "/api/posts" (Some params);
  io_ret (unwrap data).

Definition get_channel_posts (self : StaffbaseClient) (channel_id : pyval)
    (limit offset : pyval) : io pyval :=
  let params := [("limit", limit); ("offset", offset)] in
  _get self ("/api/channels/" +:+ str channel_id +:+ "/posts") (Some params).

Definition get_page (self : StaffbaseClient) (page_id : pyval) : io pyval :=
  _get self ("/api/pages/" +:+ str page_id) None.

Definition search (self : StaffbaseClient) (query : pyval) (limit : pyval) : io pyval :=
  let params := [("q", query); ("limit", limit)] in
  _get self "/api/search" (Some params).

Definition get_space_news (self : StaffbaseClient) (space_id : pyval) : io pyval :=
  perform data <- _get self ("/api/spaces/" +:+ str space_id +:+ "/news") None;
  io_ret (unwrap data).

End Upstream.

(** What one GET of a binary resource comes back with. *)
Inductive raw_reply : Type :=
| RawContent (content : list Byte.byte)   (* 2xx: [resp.content] *)
| RawStatus (msg : string)                (* not 2xx *)
| RawFailed (msg : string).               (* no response *)

(** [resp.raise_for_status(); return resp.content], and the failure of
    the request itself. *)
Definition raw_response (r : raw_reply) : res (list Byte.byte) :=
  match r with
  | RawContent content => Ok content
  | RawStatus msg => Raise (HTTPStatusError msg)
  | RawFailed msg => Raise (TransportError msg)
  end.

Section Media.
Variable upstream_raw : request -> raw_reply.

Definition _get_raw (self : StaffbaseClient) (path : string) : io (list Byte.byte) :=
  let rq := {| url := _base_url self +:+ path;
               headers := _headers self;
               params := None;
               timeout := _timeout self |} in
  perform _ <- send rq;
  lift (raw_response (upstream_raw rq)).

Definition download_media (self : StaffbaseClient) (media_path : string)
    : io (list Byte.byte) :=
  let path := if String.prefix "/api/" media_path then media_path
              else "/api/" +:+ media_path in
  _get_raw self path.

End Media.
End Client.

(** ** server.py *)

Module Server.
Import Py Json Http Client.

Record Tool : Type := {
  name : string;
  description : string;
  inputSchema : pyval
}.

Record TextContent : Type := {
  type : string;
  text : string
}.

Definition string_property (descr : string) : pyval :=
  VDict [("type", VStr "string"); ("description", VStr descr)].

Definition integer_property (descr : string) (dflt : Z) : pyval :=
  VDict [("type", VStr "integer"); ("description", VStr descr); ("default", VInt dflt)].

Definition TOOLS : list Tool :=
  [ {| name := "list_spaces";
       description := "List all Staffbase spaces (locations / sub-instances).";
       inputSchema := VDict [("type", VStr "object"); ("properties", VDict [])] |};
    {| name := "get_news";
       description :=
         "Fetch recent news posts. Without a channel_id, returns global posts. "
         +:+ "With a channel_id (installation ID), returns posts from that local channel.";
       inputSchema :=
         VDict [("type", VStr "object");
                ("properties",
                 VDict [("channel_id",
                         string_property "Optional channel installation ID for local news.");
                        ("limit",
                         integer_property "Max posts to return (default 10)." 10)])] |};
    {| name := "list_channels";
       description :=
         "List news channels available in a space. Returns channel names and "
         +:+ "installation IDs that can be used with get_news.";
       inputSchema :=
         VDict [("type", VStr "object");
                ("properties",
                 VDict [("space_id", string_property "The space ID to list channels for.")]);
                ("required", VList [VStr "space_id"])] |};
    {| name := "get_page";
       description := "Fetch a Staffbase page by its ID. Returns title and HTML content.";
       inputSchema :=
         VDict [("type", VStr "object");
                ("properties", VDict [("page_id", string_property "The page ID.")]);
                ("required", VList [VStr "page_id"])] |};
    {| name := "search";
       description := "Full-text search across all Staffbase content.";
       inputSchema :=
         VDict [("type", VStr "object");
                ("properties",
                 VDict [("query", string_property "Search query.");
                        ("limit", integer_property "Max results (default 10)." 10)]);
                ("required", VList [VStr "query"])] |} ].

Definition config_error : exn :=
  RuntimeError "STAFFBASE_URL and STAFFBASE_API_KEY environment variables are required.".

Definition _get_client (environ : gmap string string) : res StaffbaseClient :=
  let base_url := default "" (environ !! "STAFFBASE_URL") in
  let api_key := default "" (environ !! "STAFFBASE_API_KEY") in
  if String.eqb base_url "" || String.eqb api_key ""
  then Raise config_error
  else Ok (__init__ base_url api_key).

(** The representative locale of a content mapping and its content object:
    [locale = next(iter(contents), None)] and
    [localized = contents.get(locale, {}) if locale else {}]. *)
Definition pick_locale (contents : pyval) : res (pyval * pyval) :=
  do locale <- first_or_none contents;
  do localized <- (if truthy locale then get_key contents locale (VDict [])
                   else Ok (VDict []));
  Ok (locale, localized).

(** One element of the [list_spaces] comprehension. *)
Definition space_entry (s : pyval) : res pyval :=
  do id <- subscript s "id";
  do nm <- get s "name" (VStr "");
  Ok (VDict [("id", id); ("name", nm)]).

(** The body of the [get_news] loop: the entry appended for post [p]. *)
Definition news_entry (p : pyval) : res pyval :=
  do contents <- get p "contents" (VDict []);
  do ll <- pick_locale contents;
  let (locale, localized) := ll : pyval * pyval in
  do id <- get p "id" (VStr "");
  do title <- get localized "title" (VStr "");
  do teaser <- get localized "teaser" (VStr "");
  do teaser <- slice_const teaser 200;
  do published <- get p "publishedAt" (VStr "");
  Ok (VDict [("id", id); ("title", title); ("teaser", teaser);
             ("published", published); ("locale", or_else locale (VStr ""))]).

(** The object [get_page] serializes for the upstream [page]. *)
Definition page_entry (page : pyval) : res pyval :=
  do contents <- get page "contents" (VDict []);
  do ll <- pick_locale contents;
  let (locale, localized) := ll : pyval * pyval in
  do id <- get page "id" (VStr "");
  do title <- get localized "title" (VStr "");
  do content <- get localized "content" (VStr "");
  do content <- slice_const content 5000;
  do updated <- get page "updatedAt" (VStr "");
  Ok (VDict [("id", id); ("title", title); ("content", content);
             ("locale", or_else locale (VStr "")); ("updated", updated)]).

(** The entry [_extract_channels] appends for a node of type news. *)
Definition channel_entry (item : pyval) : res pyval :=
  do contents <- get item "contents" (VDict []);
  do locale <- first_or_none contents;
  do title <- (if truthy locale
               then do localized <- get_key contents locale (VDict []);
                    get localized "title" (VStr "")
               else Ok (VStr ""));
  do nm <- (if truthy title then Ok title else get item "title" (VStr ""));
  do id <- get item "id" (VStr "");
  do installation_id <- get item "installationID" id;
  Ok (VDict [("name", nm); ("installation_id", installation_id)]).

(** The body of the loop of [_extract_channels] for one [item]; [recurse]
    stands for the function itself. *)
Definition extract_channels_item
    (recurse : pyval -> option (list pyval) -> res (list pyval))
    (item : pyval) (result : list pyval) : res (list pyval) :=
  do ty <- get item "type" VNone;
  do result <- (if eq_str ty "news"
                then do entry <- channel_entry item; Ok (result ++ [entry])
                else Ok result);
  do children <- get item "children" (VList []);
  if truthy children then recurse children (Some result) else Ok result.

(** [_extract_channels(items, result)] with the depth of the call stack
    it may still use; a call that has none left raises [RecursionError]. *)
Fixpoint extract_channels_depth (depth : nat) (items : pyval)
    (result : option (list pyval)) : res (list pyval) :=
  match depth with
  | O => Raise (RecursionError "maximum recursion depth exceeded")
  | S depth' =>
      let result := default [] result in
      do items <- iterate items;
      for_each items result (extract_channels_item (extract_channels_depth depth'))
  end.

(** Nesting depth of a value. *)
Fixpoint height (v : pyval) : nat :=
  match v with
  | VList xs => S (foldr Nat.max 0 (map height xs))
  | VDict kvs => S (foldr Nat.max 0 (map (fun kv => height (snd kv)) kvs))
  | _ => 0
  end.

(** [_extract_channels(items, result)], run by an interpreter whose call
    stack has room for [recursion_depth] nested calls of it. *)
Definition _extract_channels (recursion_depth : nat) (items : pyval)
    (result : option (list pyval)) : res (list pyval) :=
  extract_channels_depth recursion_depth items result.

Section Dispatch.
Variable recursion_depth : nat.
Variable environ : gmap string string.
Variable upstream : request -> reply.

(** The [result] list of the [list_spaces] branch. *)
Definition list_spaces_result (client : StaffbaseClient) : io (list pyval) :=
  perform spaces <- list_spaces upstream client true;
  lift (do spaces <- iterate spaces;
        for_each spaces [] (fun s result =>
          do entry <- space_entry s; Ok (result ++ [entry]))).

Definition handle_list_spaces (client : StaffbaseClient) : io string :=
  perform result <- list_spaces_result client;
  io_ret (dumps (VList result) (Some 2)).

(** The [result] list of the [get_news] branch. *)
Definition get_news_result (client : StaffbaseClient)
    (arguments : list (string * pyval)) : io (list pyval) :=
  let channel_id := dict_get arguments "channel_id" VNone in
  let limit := dict_get arguments "limit" (VInt 10) in
  perform posts <- (if truthy channel_id
                    then perform data <- get_channel_posts upstream client channel_id
                                           limit (VInt 0);
                         io_ret (unwrap data)
                    else get_global_posts upstream client limit (VInt 0));
  lift (do shown <- match posts with
                    | VList xs => list_slice xs limit
                    | _ => Ok []
                    end;
        for_each shown [] (fun p result =>
          do entry <- news_entry p; Ok (result ++ [entry]))).

Definition handle_get_news (client : StaffbaseClient)
    (arguments : list (string * pyval)) : io string :=
  perform result <- get_news_result client arguments;
  io_ret (dumps (VList result) (Some 2)).

Definition handle_list_channels (client : StaffbaseClient)
    (arguments : list (string * pyval)) : io string :=
  perform space_id <- lift (subscript (VDict arguments) "space_id");
  perform news <- get_space_news upstream client space_id;
  perform channels <- lift (_extract_channels recursion_depth news None);
  io_ret (dumps (VList channels) (Some 2)).

Definition handle_get_page (client : StaffbaseClient)
    (arguments : list (string * pyval)) : io string :=
  perform page_id <- lift (subscript (VDict arguments) "page_id");
  perform page <- get_page upstream client page_id;
  perform shown <- lift (page_entry page);
  io_ret (dumps shown (Some 2)).

Definition handle_search (client : StaffbaseClient)
    (arguments : list (string * pyval)) : io string :=
  perform query <- lift (subscript (VDict arguments) "query");
  let limit := dict_get arguments "limit" (VInt 10) in
  perform data <- search upstream client query limit;
  io_ret (dumps data (Some 2)).

Definition unknown_tool (name : string) : pyval :=
  VDict [("error", VStr ("Unknown tool: " +:+ name))].

Definition _handle_tool (name : string) (arguments : list (string * pyval))
    : io string :=
  perform client <- lift (_get_client environ);
  if String.eqb name "list_spaces" then handle_list_spaces client
  else if String.eqb name "get_news" then handle_get_news client arguments
  else if String.eqb name "list_channels" then handle_list_channels client arguments
  else if String.eqb name "get_page" then handle_get_page client arguments
  else if String.eqb name "search" then handle_search client arguments
  else io_ret (dumps (unknown_tool name) None).

Definition list_tools : list Tool := TOOLS.

(** The payload that reports [exc]. *)
Definition error_payload (exc : exn) : string :=
  dumps (VDict [("error", VStr (str_exc exc))]) None.

Definition call_tool (name : string) (arguments : list (string * pyval))
    (w : world) : list TextContent * world :=
  match _handle_tool name arguments w with
  | (Ok result, w') => ([{| type := "text"; text := result |}], w')
  | (Raise exc, w') =>
      ([{| type := "text"; text := error_payload exc |}],
       log ("Tool " +:+ name +:+ " failed") w')
  end.

End Dispatch.
End Server.

(** ** Vocabulary of the properties *)

Module Spec.
Import Py Json Http Client Server.

(** Both configuration values are present and non-empty. *)
Definition configured (environ : gmap string string) : bool :=
  negb (String.eqb (default "" (environ !! "STAFFBASE_URL")) "")
  && negb (String.eqb (default "" (environ !! "STAFFBASE_API_KEY")) "").

Definition absent_or_empty (environ : gmap string string) (var : string) : Prop :=
  environ !! var = None \/ environ !! var = Some "".

(** The client a configured environment gives. *)
Definition client_of (environ : gmap string string) : StaffbaseClient :=
  __init__ (default "" (environ !! "STAFFBASE_URL"))
           (default "" (environ !! "STAFFBASE_API_KEY")).

(** The GET request for [path] that client sends. *)
Definition GET (environ : gmap string string) (path : string)
    (params : option (list (string * pyval))) : request :=
  {| url := _base_url (client_of environ) +:+ path;
     headers := _headers (client_of environ);
     params := params;
     timeout := _timeout (client_of environ) |}.

(** The request [list_spaces] sends. *)
Definition spaces_request (environ : gmap string string) : request :=
  GET environ "/api/spaces" (Some [("includeHidden", VStr "true")]).

(** The world after one more request. *)
Definition sent (w : world) (rq : request) : world :=
  {| requests := requests w ++ [rq]; logged := logged w |}.

Definition text_payload (t : string) : TextContent := {| type := "text"; text := t |}.

Definition tool_names : list string := map name TOOLS.

(** [needle in hay] *)
Fixpoint contains (hay needle : string) : bool :=
  String.prefix needle hay
  || match hay with
     | EmptyString => false
     | String _ rest => contains rest needle
     end.

(** [[f(x) for x in xs]], stopping at the first exception. *)
Fixpoint map_res {A B} (f : A -> res B) (xs : list A) : res (list B) :=
  match xs with
  | [] => Ok []
  | x :: rest => do y <- f x; do ys <- map_res f rest; Ok (y :: ys)
  end.

Definition is_ok {A} (r : res A) : bool :=
  match r with Ok _ => true | Raise _ => false end.

(** The outcome is not the exhaustion of the call stack. *)
Definition within_depth {A} (r : res A) : Prop :=
  forall msg, r <> Raise (RecursionError msg).

(** *** Channel trees *)

(** The node's [type] field equals news. *)
Definition is_news (node : pyval) : bool :=
  match node with
  | VDict kvs => eq_str (dict_get kvs "type" VNone) "news"
  | _ => false
  end.

(** The nodes of a tree in depth-first order, a node before the nodes
    below it, the children from first to last. *)
Fixpoint nodes_preorder (node : pyval) : list pyval :=
  match node with
  | VDict kvs =>
      node :: dict_find "children"
                (fun c => match c with
                          | VList cs => flat_map nodes_preorder cs
                          | _ => []
                          end) [] kvs
  | _ => []
  end.

Definition forest_preorder (items : list pyval) : list pyval :=
  flat_map nodes_preorder items.

(** The number of levels of a tree: one for the node, and those of the
    deepest tree in its [children] list. *)
Fixpoint levels (node : pyval) : nat :=
  match node with
  | VDict kvs =>
      S (dict_find "children"
           (fun c => match c with
                     | VList cs => foldr Nat.max 0 (map levels cs)
                     | _ => 0
                     end) 0 kvs)
  | _ => 0
  end.

Definition forest_levels (items : list pyval) : nat :=
  foldr Nat.max 0 (map levels items).

(** The content mapping of a node, post or page is absent, empty, or maps
    its first locale to a content object. *)
Definition contents_ok (kvs : list (string * pyval)) : bool :=
  match dict_lookup kvs "contents" with
  | None => true
  | Some (VDict []) => true
  | Some (VDict ((locale, c) :: _)) => String.eqb locale "" || isinstance_dict c
  | Some _ => false
  end.

(** A channel tree: an object whose [children], when present, hold
    nothing or a list of channel trees. *)
Fixpoint channel_tree (node : pyval) : bool :=
  match node with
  | VDict kvs =>
      (if is_news node then contents_ok kvs else true)
      && dict_find "children"
           (fun c => match c with
                     | VList cs => forallb channel_tree cs
                     | _ => negb (truthy c)
                     end) true kvs
  | _ => false
  end.

(** The title in the content object of the first locale, empty when there
    is none. *)
Definition localized_title (kvs : list (string * pyval)) : pyval :=
  match dict_lookup kvs "contents" with
  | Some (VDict ((locale, VDict c) :: _)) =>
      if String.eqb locale "" then VStr "" else dict_get c "title" (VStr "")
  | _ => VStr ""
  end.

(** The name: the localized title, else the top-level [title], else empty. *)
Definition entry_name (kvs : list (string * pyval)) : pyval :=
  if truthy (localized_title kvs) then localized_title kvs
  else match dict_lookup kvs "title" with
       | Some t => t
       | None => VStr ""
       end.

(** The installation id: [installationID], else [id], else empty. *)
Definition entry_installation_id (kvs : list (string * pyval)) : pyval :=
  match dict_lookup kvs "installationID" with
  | Some i => i
  | None => match dict_lookup kvs "id" with
            | Some i => i
            | None => VStr ""
            end
  end.

Definition entry_of (node : pyval) : pyval :=
  match node with
  | VDict kvs =>
      VDict [("name", entry_name kvs); ("installation_id", entry_installation_id kvs)]
  | _ => VNone
  end.

(** *** Spaces, pages *)

(** The element is an object with an [id] key. *)
Definition has_id (s : pyval) : bool :=
  match s with
  | VDict kvs => match dict_lookup kvs "id" with Some _ => true | None => false end
  | _ => false
  end.

Definition space_view (s : pyval) : pyval :=
  match s with
  | VDict kvs =>
      VDict [("id", dict_get kvs "id" VNone); ("name", dict_get kvs "name" (VStr ""))]
  | _ => VNone
  end.

(** The first key of a mapping, empty when it has none. *)
Definition first_key (kvs : list (string * pyval)) : string :=
  match kvs with
  | [] => ""
  | (k, _) :: _ => k
  end.

(** The value of a field of an emitted object. *)
Definition field (v : pyval) (k : string) : option pyval :=
  match v with
  | VDict kvs => dict_lookup kvs k
  | _ => None
  end.

(** The query of a posts request: the limit, and offset 0. *)
Definition posts_params (limit : pyval) : option (list (string * pyval)) :=
  Some [("limit", limit); ("offset", VInt 0)].

(** The posts [get_news] walks: [posts[:limit] if isinstance(posts, list)
    else []]. *)
Definition shown_posts (posts limit : pyval) : res (list pyval) :=
  match posts with
  | VList xs => list_slice xs limit
  | _ => Ok []
  end.

(** *** The boundary as a whole *)

(** The world after the requests [rqs] and the log lines [lines]. *)
Definition grown (w : world) (rqs : list request) (lines : list string) : world :=
  {| requests := requests w ++ rqs; logged := logged w ++ lines |}.

(** The request carries the credentials and the timeout of the configured
    client, and addresses a path under [/api/] of its base URL. *)
Definition authorized (environ : gmap string string) (rq : request) : Prop :=
  headers rq = [("Authorization", "Basic " +:+ default "" (environ !! "STAFFBASE_API_KEY"))]
  /\ timeout rq = 30%Z
  /\ exists path,
       url rq = rstrip_slash (default "" (environ !! "STAFFBASE_URL")) +:+ path
       /\ String.prefix "/api/" path = true.

(** The path [get_news] asks for, given the [channel_id] argument. *)
Definition news_path (channel_id : pyval) : string :=
  if truthy channel_id then "/api/channels/" +:+ str channel_id +:+ "/posts"
  else "/api/posts".

(** The names a tool descriptor lists as required. *)
Definition required (t : Tool) : list pyval :=
  match inputSchema t with
  | VDict schema =>
      match dict_lookup schema "required" with
      | Some (VList ks) => ks
      | _ => []
      end
  | _ => []
  end.

(** The keys of an emitted object, in order. *)
Definition keys (v : pyval) : list string :=
  match v with
  | VDict kvs => map fst kvs
  | _ => []
  end.

(** [n] slashes. *)
Fixpoint slashes (n : nat) : string :=
  match n with
  | O => ""
  | S n' => String "/"%char (slashes n')
  end.

Fixpoint ends_with_slash (s : string) : bool :=
  match s with
  | EmptyString => false
  | String c EmptyString => Ascii.eqb c "/"%char
  | String _ rest => ends_with_slash rest
  end.

(** *** Well-formed posts *)

(** The content object of the first locale of a post or page, as fields;
    none when the mapping is empty or its first key is. *)
Definition localized (kvs : list (string * pyval)) : list (string * pyval) :=
  match dict_lookup kvs "contents" with
  | Some (VDict ((locale, VDict c) :: _)) => if String.eqb locale "" then [] else c
  | _ => []
  end.

Definition locale_of (kvs : list (string * pyval)) : string :=
  match dict_lookup kvs "contents" with
  | Some (VDict ckvs) => first_key ckvs
  | _ => ""
  end.

(** The field is absent or text. *)
Definition text_or_absent (c : list (string * pyval)) (k : string) : bool :=
  match dict_lookup c k with
  | None => true
  | Some (VStr _) => true
  | Some _ => false
  end.

(** A post: an object with a well-formed content mapping whose teaser, if
    any, is text. *)
Definition post_ok (p : pyval) : bool :=
  match p with
  | VDict kvs => contents_ok kvs && text_or_absent (localized kvs) "teaser"
  | _ => false
  end.

(** What [get_news] shows of a post. *)
Definition news_view (p : pyval) : pyval :=
  match p with
  | VDict kvs =>
      VDict [("id", dict_get kvs "id" (VStr ""));
             ("title", dict_get (localized kvs) "title" (VStr ""));
             ("teaser", match dict_get (localized kvs) "teaser" (VStr "") with
                        | VStr s => VStr (str_slice_upto 200 s)
                        | v => v
                        end);
             ("published", dict_get kvs "publishedAt" (VStr ""));
             ("locale", VStr (locale_of kvs))]
  | _ => VNone
  end.

(** A page: an object with a well-formed content mapping whose content,
    if any, is text. *)
Definition page_ok (page : pyval) : bool :=
  match page with
  | VDict kvs => contents_ok kvs && text_or_absent (localized kvs) "content"
  | _ => false
  end.

(** What [get_page] shows of a page. *)
Definition page_view (page : pyval) : pyval :=
  match page with
  | VDict kvs =>
      VDict [("id", dict_get kvs "id" (VStr ""));
             ("title", dict_get (localized kvs) "title" (VStr ""));
             ("content", match dict_get (localized kvs) "content" (VStr "") with
                         | VStr s => VStr (str_slice_upto 5000 s)
                         | v => v
                         end);
             ("locale", VStr (locale_of kvs));
             ("updated", dict_get kvs "updatedAt" (VStr ""))]
  | _ => VNone
  end.

(** The request [download_media] sends for [path]. *)
Definition raw_request (self : StaffbaseClient) (path : string) : request :=
  {| url := _base_url self +:+ path;
     headers := _headers self;
     params := None;
     timeout := _timeout self |}.

End Spec.

(** ** Sample data *)

Module Sample.
Import Py Json Http Client Server.

Definition environ : gmap string string :=
  <["STAFFBASE_URL" := "https://intranet.example/"]>
    (<["STAFFBASE_API_KEY" := "dXNlcjpzZWNyZXQ="]> ∅).

(** The recursion limit a CPython starts with; a walk never has more. *)
Definition depth : nat := 1000.

(** A news node under [n] folders, each the only child of the one above. *)
Fixpoint nested (n : nat) : pyval :=
  match n with
  | O => VDict [("type", VStr "news"); ("id", VStr "deep")]
  | S n' => VDict [("type", VStr "folder"); ("children", VList [nested n'])]
  end.

(** An upstream that answers every request with [body]. *)
Definition serve (body : pyval) : request -> reply := fun _ => ReplyJson body.

(** A menu with a folder, a news node that has a child, and a bare node. *)
Definition menu : list pyval :=
  [ VDict [("type", VStr "folder");
           ("children",
            VList [VDict [("type", VStr "news"); ("id", VStr "a"); ("title", VStr "A");
                          ("children",
                           VList [VDict [("type", VStr "news");
                                         ("installationID", VStr "b");
                                         ("contents",
                                          VDict [("de", VDict [("title", VStr "B")])])]])]])];
    VDict [("type", VStr "news")] ].


(** The third descriptor of the catalog. *)
Definition list_channels_tool : Tool :=
  {| name := "list_channels";
     description :=
       "List news channels available in a space. Returns channel names and "
       +:+ "installation IDs that can be used with get_news.";
     inputSchema :=
       VDict [("type", VStr "object");
              ("properties",
               VDict [("space_id", string_property "The space ID to list channels for.")]);
              ("required", VList [VStr "space_id"])] |}.

Fixpoint replicate_char (n : nat) (c : ascii) : string :=
  match n with
  | O => ""
  | S n' => String c (replicate_char n' c)
  end.

Definition post_with_teaser (teaser : string) : pyval :=
  VDict [("id", VStr "p1");
         ("contents", VDict [("en", VDict [("title", VStr "T"); ("teaser", VStr teaser)])]);
         ("publishedAt", VStr "2024-05-01")].

End Sample.

(** ** Lemmas on the interpreter operations *)

Import Py Json Http Client Server Spec.

Lemma dict_find_lookup {A} (k : string) (found : pyval -> A) (missing : A) kvs :
  dict_find k found missing kvs
  = match dict_lookup kvs k with Some v => found v | None => missing end.
Proof.
  unfold dict_lookup.
  induction kvs as [|[k' v] rest IH]; simpl; [reflexivity|].
  destruct (String.eqb k k'); [reflexivity | exact IH].
Qed.

Lemma dict_lookup_cons k k' v rest :
  dict_lookup ((k', v) :: rest) k
  = if String.eqb k k' then Some v else dict_lookup rest k.
Proof. reflexivity. Qed.

Lemma truthy_str s : truthy (VStr s) = negb (String.eqb s "").
Proof. reflexivity. Qed.

Lemma foldr_max_le (n : nat) (ns : list nat) : In n ns -> n <= foldr Nat.max 0 ns.
Proof.
  induction ns as [|m ns IH]; simpl; [tauto|].
  intros [->|Hin]; [lia | specialize (IH Hin); lia].
Qed.

Lemma height_elem x xs : In x xs -> height x < height (VList xs).
Proof.
  intros Hin. simpl. apply Nat.lt_succ_r, foldr_max_le.
  apply in_map_iff. exists x. split; [reflexivity | exact Hin].
Qed.

Lemma dict_lookup_In kvs k v : dict_lookup kvs k = Some v -> In (k, v) kvs.
Proof.
  induction kvs as [|[k' v'] rest IH]; [discriminate|].
  rewrite dict_lookup_cons.
  destruct (String.eqb k k') eqn:E.
  - intros [= ->]. apply String.eqb_eq in E as ->. left; reflexivity.
  - intros H. right. exact (IH H).
Qed.

Lemma height_value kvs k v : dict_lookup kvs k = Some v -> height v < height (VDict kvs).
Proof.
  intros H%dict_lookup_In. simpl. apply Nat.lt_succ_r, foldr_max_le.
  apply in_map_iff. exists (k, v). split; [reflexivity | exact H].
Qed.

Lemma for_each_ext {A S} (xs : list A) (f g : A -> S -> res S) :
  (forall x, In x xs -> forall s, f x s = g x s) ->
  forall s, for_each xs s f = for_each xs s g.
Proof.
  induction xs as [|x xs IH]; intros Hfg s; simpl; [reflexivity|].
  rewrite (Hfg x (or_introl eq_refl)).
  destruct (g x s) as [s'|e]; simpl; [|reflexivity].
  apply IH. intros y Hy. apply Hfg. right; exact Hy.
Qed.

(** A loop that appends [f x] for every [x] is a comprehension. *)
Lemma for_each_append {A B} (f : A -> res B) (xs : list A) (acc : list B) :
  for_each xs acc (fun x result => do y <- f x; Ok (result ++ [y]))
  = do ys <- map_res f xs; Ok (acc ++ ys).
Proof.
  revert acc. induction xs as [|x xs IH]; intros acc; simpl.
  - by rewrite app_nil_r.
  - destruct (f x) as [y|e]; simpl; [|reflexivity].
    rewrite IH. destruct (map_res f xs) as [ys|e]; simpl; [|reflexivity].
    by rewrite <- app_assoc.
Qed.

Lemma map_res_length {A B} (f : A -> res B) xs ys :
  map_res f xs = Ok ys -> length ys = length xs.
Proof.
  revert ys. induction xs as [|x xs IH]; intros ys; simpl.
  - by intros [= <-].
  - destruct (f x) as [y|e]; simpl; [|discriminate].
    destruct (map_res f xs) as [ys'|e]; simpl; [|discriminate].
    intros [= <-]. simpl. by rewrite (IH ys').
Qed.

Lemma map_res_total {A B} (f : A -> res B) (g : A -> B) xs :
  (forall x, In x xs -> f x = Ok (g x)) -> map_res f xs = Ok (map g xs).
Proof.
  induction xs as [|x xs IH]; intros H; simpl; [reflexivity|].
  rewrite (H x (or_introl eq_refl)). simpl.
  rewrite IH; [reflexivity|]. intros y Hy. apply H. right; exact Hy.
Qed.

(** ** The walk of the channel tree *)

Lemma iterate_dict_elem items xs kvs :
  iterate items = Ok xs -> In (VDict kvs) xs -> height (VDict kvs) < height items.
Proof.
  destruct items as [| | |s|ys|ps]; try discriminate; intros [= <-] Hin.
  - exfalso. induction s as [|c s IH]; simpl in Hin; [tauto|].
    destruct Hin as [Hin|Hin]; [discriminate | exact (IH Hin)].
  - by apply height_elem.
  - exfalso. apply in_map_iff in Hin as [? [? _]]. discriminate.
Qed.

Lemma truthy_children_height kvs :
  truthy (dict_get kvs "children" (VList [])) = true ->
  height (dict_get kvs "children" (VList [])) < height (VDict kvs).
Proof.
  unfold dict_get. destruct (dict_lookup kvs "children") as [c|] eqn:E; simpl.
  - intros _. exact (height_value _ _ _ E).
  - discriminate.
Qed.

(** Two recursive calls that agree on everything below [item] give the
    same loop body at [item]. *)
Lemma extract_channels_item_ext rec1 rec2 item result :
  (forall kvs acc, item = VDict kvs ->
     truthy (dict_get kvs "children" (VList [])) = true ->
     rec1 (dict_get kvs "children" (VList [])) acc
     = rec2 (dict_get kvs "children" (VList [])) acc) ->
  extract_channels_item rec1 item result = extract_channels_item rec2 item result.
Proof.
  intros Hrec. destruct item as [| | | | |kvs]; try reflexivity.
  unfold extract_channels_item. cbn [get res_bind].
  match goal with |- context [if ?b then _ else Ok result] =>
    destruct (if b then _ else Ok result) as [acc|e] end; cbn [res_bind];
    [|reflexivity].
  destruct (truthy _) eqn:Ht; [|reflexivity].
  by apply Hrec.
Qed.

(** Depth beyond the height of the argument changes nothing: the walk
    never runs out of it. *)
Lemma extract_channels_depth_enough d1 d2 items result :
  height items < d1 -> height items < d2 ->
  extract_channels_depth d1 items result = extract_channels_depth d2 items result.
Proof.
  revert d2 items result.
  induction d1 as [|d1 IH]; intros d2 items result H1 H2; [lia|].
  destruct d2 as [|d2]; [lia|]. cbn [extract_channels_depth].
  destruct (iterate items) as [xs|e] eqn:Hit; cbn [res_bind]; [|reflexivity].
  apply for_each_ext. intros item Hin acc.
  apply extract_channels_item_ext. intros kvs acc' -> Ht.
  pose proof (iterate_dict_elem _ _ _ Hit Hin).
  pose proof (truthy_children_height _ Ht).
  apply IH; lia.
Qed.

Lemma within_depth_bind {A B} (c : res A) (k : A -> res B) :
  within_depth c -> (forall a, within_depth (k a)) ->
  within_depth (do a <- c; k a).
Proof.
  intros Hc Hk. destruct c as [a|e]; cbn [res_bind]; [apply Hk|].
  intros msg [= ->]. by apply (Hc msg).
Qed.

Lemma within_depth_ok {A} (a : A) : within_depth (Ok a).
Proof. intros msg. discriminate. Qed.

Lemma within_depth_get v k dflt : within_depth (get v k dflt).
Proof. intros msg. by destruct v. Qed.

Lemma within_depth_get_key v key dflt : within_depth (get_key v key dflt).
Proof. intros msg. by destruct v, key. Qed.

Lemma within_depth_iterate v : within_depth (iterate v).
Proof. intros msg. by destruct v. Qed.

Lemma within_depth_for_each {A S} (xs : list A) (f : A -> S -> res S) s :
  (forall x, In x xs -> forall s', within_depth (f x s')) ->
  within_depth (for_each xs s f).
Proof.
  revert s. induction xs as [|x xs IH]; intros s Hf; cbn [for_each].
  - apply within_depth_ok.
  - apply within_depth_bind; [apply Hf; by left|].
    intros s'. apply IH. intros y Hy. apply Hf. by right.
Qed.

Lemma within_depth_channel_entry item : within_depth (channel_entry item).
Proof.
  unfold channel_entry, first_or_none.
  repeat first
    [ apply within_depth_ok | apply within_depth_get | apply within_depth_get_key
    | apply within_depth_iterate
    | apply within_depth_bind; [|intros ?]
    | match goal with |- within_depth (if ?b then _ else _) => destruct b end ].
Qed.

(** With more depth than its argument is nested, the walk never raises
    [RecursionError]. *)
Lemma extract_channels_within_depth d items result :
  height items < d -> within_depth (extract_channels_depth d items result).
Proof.
  revert items result. induction d as [|d IH]; intros items result Hh; [lia|].
  cbn [extract_channels_depth].
  destruct (iterate items) as [xs|e] eqn:Hit; cbn [res_bind];
    [|rewrite <- Hit; apply within_depth_iterate].
  apply within_depth_for_each. intros item Hin acc.
  unfold extract_channels_item.
  apply within_depth_bind; [apply within_depth_get|]. intros ty.
  apply within_depth_bind.
  { destruct (eq_str ty "news"); [|apply within_depth_ok].
    apply within_depth_bind; [apply within_depth_channel_entry|].
    intros entry. apply within_depth_ok. }
  intros acc'. destruct item as [| | | | |kvs];
    try (cbn [get res_bind]; intros msg; discriminate).
  cbn [get res_bind]. destruct (truthy _) eqn:Ht; [|apply within_depth_ok].
  pose proof (iterate_dict_elem _ _ _ Hit Hin).
  pose proof (truthy_children_height _ Ht).
  apply IH. lia.
Qed.

(** The recursive equation of the source function: a call runs the loop
    with one nested call less to spare, and a call with none to spare
    raises. *)
Lemma extract_channels_unfold depth items result :
  _extract_channels (S depth) items result
  = (do xs <- iterate items;
     for_each xs (default [] result) (extract_channels_item (_extract_channels depth)))
  /\ _extract_channels 0 items result
     = Raise (RecursionError "maximum recursion depth exceeded").
Proof. by split. Qed.

(** A walk that succeeds succeeds with any deeper stack, with the same
    result. *)
Lemma extract_channels_deeper depth items result r :
  _extract_channels depth items result = Ok r ->
  forall depth', depth <= depth' -> _extract_channels depth' items result = Ok r.
Proof.
  unfold _extract_channels. revert items result r.
  induction depth as [|d IH]; intros items result r; [discriminate|].
  intros Hr [|d'] Hle; [lia|]. revert Hr. cbn [extract_channels_depth].
  destruct (iterate items) as [xs|e]; cbn [res_bind]; [|discriminate].
  generalize (default [] result). clear result.
  induction xs as [|item xs IHxs]; intros acc; cbn [for_each]; [done|].
  destruct (extract_channels_item (extract_channels_depth d) item acc)
    as [acc1|e] eqn:Hitem; cbn [res_bind]; [|discriminate].
  intros Hrest.
  assert (extract_channels_item (extract_channels_depth d') item acc = Ok acc1) as ->.
  { revert Hitem. unfold extract_channels_item.
    destruct (get item "type" VNone) as [ty|e]; cbn [res_bind]; [|discriminate].
    destruct (if eq_str ty "news" then _ else Ok acc) as [acc0|e]; cbn [res_bind];
      [|discriminate].
    destruct (get item "children" (VList [])) as [children|e]; cbn [res_bind];
      [|discriminate].
    destruct (truthy children); [|done].
    intros H. apply (IH _ _ _ H). lia. }
  cbn [res_bind]. by apply IHxs.
Qed.

(** On a node whose content mapping is well formed the entry is computed,
    and it is the one the fallback rules describe. *)
Lemma channel_entry_ok kvs :
  contents_ok kvs = true -> channel_entry (VDict kvs) = Ok (entry_of (VDict kvs)).
Proof.
  unfold contents_ok, channel_entry, entry_of, entry_name, localized_title,
    entry_installation_id.
  cbn [get res_bind]. unfold dict_get.
  destruct (dict_lookup kvs "contents") as [[| | | | |[|[locale c] more]]|];
    cbn; try discriminate; intros Hc.
  - by destruct (dict_lookup kvs "title"), (dict_lookup kvs "installationID"),
      (dict_lookup kvs "id").
  - destruct (String.eqb locale "") eqn:El; cbn.
    + destruct c; cbn;
        by destruct (dict_lookup kvs "title"), (dict_lookup kvs "installationID"),
          (dict_lookup kvs "id").
    + destruct c as [| | | | |ckvs]; try discriminate.
      rewrite String.eqb_refl. cbn. unfold dict_get.
      destruct (truthy (default (VStr "") (dict_lookup ckvs "title"))); cbn;
        by destruct (dict_lookup kvs "title"), (dict_lookup kvs "installationID"),
          (dict_lookup kvs "id").
  - by destruct (dict_lookup kvs "title"), (dict_lookup kvs "installationID"),
      (dict_lookup kvs "id").
Qed.

Lemma channel_tree_dict kvs :
  channel_tree (VDict kvs)
  = (if is_news (VDict kvs) then contents_ok kvs else true)
    && match dict_lookup kvs "children" with
       | Some (VList cs) => forallb channel_tree cs
       | Some c => negb (truthy c)
       | None => true
       end.
Proof.
  cbn [channel_tree]. rewrite dict_find_lookup.
  by destruct (dict_lookup kvs "children") as [[]|].
Qed.

Lemma nodes_preorder_dict kvs :
  nodes_preorder (VDict kvs)
  = VDict kvs :: match dict_lookup kvs "children" with
                 | Some (VList cs) => forest_preorder cs
                 | _ => []
                 end.
Proof.
  cbn [nodes_preorder]. rewrite dict_find_lookup.
  by destruct (dict_lookup kvs "children") as [[]|].
Qed.

Lemma forest_preorder_cons node rest :
  forest_preorder (node :: rest) = nodes_preorder node ++ forest_preorder rest.
Proof. reflexivity. Qed.

(** Every node of the traversal is an object. *)
Lemma nodes_preorder_dicts node x :
  In x (nodes_preorder node) -> isinstance_dict x = true.
Proof.
  revert x. remember (height node) as h eqn:Hh.
  revert node Hh. induction (lt_wf h) as [h _ IH]. intros node -> x.
  destruct node as [| | | | |kvs]; [by intros []..|].
  rewrite nodes_preorder_dict. intros [<-|Hin]; [reflexivity|].
  destruct (dict_lookup kvs "children") as [[| | | |cs|]|] eqn:E;
    try (destruct Hin).
  apply in_flat_map in Hin as [c [Hc Hx]].
  pose proof (height_value _ _ _ E). pose proof (height_elem _ _ Hc).
  eapply (IH (height c)); [lia | reflexivity | exact Hx].
Qed.

(** One step of the loop on a channel tree, given that the recursive call
    is right on the children. *)
Lemma extract_channels_item_tree rec kvs acc :
  channel_tree (VDict kvs) = true ->
  (forall cs acc', dict_lookup kvs "children" = Some (VList cs) ->
     cs <> [] -> forallb channel_tree cs = true ->
     rec (VList cs) (Some acc')
     = Ok (acc' ++ map entry_of (List.filter is_news (forest_preorder cs)))) ->
  extract_channels_item rec (VDict kvs) acc
  = Ok (acc ++ map entry_of (List.filter is_news (nodes_preorder (VDict kvs)))).
Proof.
  rewrite channel_tree_dict, nodes_preorder_dict.
  intros [Hnews Hkids]%andb_true_iff Hrec.
  unfold extract_channels_item. cbn [get res_bind List.filter].
  change (eq_str (dict_get kvs "type" VNone) "news") with (is_news (VDict kvs)).
  set (own := if is_news (VDict kvs) then [entry_of (VDict kvs)] else []).
  assert (Hown :
    (if is_news (VDict kvs)
     then do entry <- channel_entry (VDict kvs); Ok (acc ++ [entry])
     else Ok acc) = Ok (acc ++ own)).
  { subst own. destruct (is_news (VDict kvs)).
    - by rewrite (channel_entry_ok _ Hnews).
    - by rewrite app_nil_r. }
  rewrite Hown. cbn [res_bind].
  assert (Hsplit : forall below,
    acc ++ map entry_of
      (if is_news (VDict kvs) then VDict kvs :: List.filter is_news below
       else List.filter is_news below)
    = (acc ++ own) ++ map entry_of (List.filter is_news below)).
  { intros below. subst own. rewrite <- app_assoc.
    by destruct (is_news (VDict kvs)). }
  rewrite Hsplit. unfold dict_get.
  destruct (dict_lookup kvs "children") as [c|] eqn:E; cbn [default from_option id].
  - destruct (isinstance_list c) eqn:Hl.
    + destruct c as [| | | |cs|]; try discriminate.
      destruct cs as [|c cs]; [cbn; by rewrite app_nil_r|].
      cbn [truthy]. by apply Hrec.
    + assert (truthy c = false) as ->
        by (destruct c; try discriminate; by apply negb_true_iff).
      assert (match c with VList cs => forest_preorder cs | _ => [] end = []) as ->
        by (by destruct c).
      cbn. by rewrite app_nil_r.
  - cbn. by rewrite app_nil_r.
Qed.

Lemma levels_dict kvs :
  levels (VDict kvs)
  = S match dict_lookup kvs "children" with
      | Some (VList cs) => forest_levels cs
      | _ => 0
      end.
Proof.
  cbn [levels]. rewrite dict_find_lookup.
  by destruct (dict_lookup kvs "children") as [[]|].
Qed.

Lemma forest_levels_cons item rest :
  forest_levels (item :: rest) = Nat.max (levels item) (forest_levels rest).
Proof. reflexivity. Qed.

(** A forest that is not empty has a level. *)
Lemma forest_levels_positive items :
  forallb channel_tree items = true -> items <> [] -> 0 < forest_levels items.
Proof.
  destruct items as [|item rest]; [congruence|]. intros Hwf _.
  apply andb_true_iff in Hwf as [Hitem _].
  destruct item as [| | | | |kvs]; try discriminate.
  rewrite forest_levels_cons, levels_dict. lia.
Qed.

(** The walk of a forest of channel trees that has no more levels than
    the stack has room for: the entries of the nodes of type news, in
    depth-first order, after what was collected before. *)
Lemma extract_channels_forest d items acc :
  forallb channel_tree items = true ->
  0 < d -> forest_levels items <= d ->
  extract_channels_depth d (VList items) (Some acc)
  = Ok (acc ++ map entry_of (List.filter is_news (forest_preorder items))).
Proof.
  revert items acc.
  induction d as [|d IH]; intros items acc Hwf Hd Hlev; [lia|]. clear Hd.
  cbn [extract_channels_depth iterate res_bind default from_option id].
  revert acc.
  induction items as [|item rest IHrest]; intros acc.
  - cbn. by rewrite app_nil_r.
  - apply andb_true_iff in Hwf as [Hitem Hrest].
    destruct item as [| | | | |kvs]; try discriminate.
    rewrite forest_levels_cons, levels_dict in Hlev.
    cbn [for_each].
    rewrite (extract_channels_item_tree _ kvs acc Hitem).
    + cbn [res_bind]. rewrite IHrest; [|exact Hrest|lia].
      rewrite forest_preorder_cons, List.filter_app, map_app. by rewrite app_assoc.
    + intros cs acc' E Hne Hcs. rewrite E in Hlev.
      pose proof (forest_levels_positive cs Hcs Hne).
      apply IH; [exact Hcs|lia..].
Qed.

(** The walk of a forest of channel trees that has more levels than the
    stack has room for raises [RecursionError]. *)
Lemma extract_channels_too_deep d items acc :
  forallb channel_tree items = true ->
  d < forest_levels items ->
  extract_channels_depth d (VList items) (Some acc)
  = Raise (RecursionError "maximum recursion depth exceeded").
Proof.
  revert items acc.
  induction d as [|d IH]; intros items acc Hwf Hlev; [reflexivity|].
  cbn [extract_channels_depth iterate res_bind default from_option id].
  revert acc.
  induction items as [|item rest IHrest]; intros acc; [cbn in Hlev; lia|].
  apply andb_true_iff in Hwf as [Hitem Hrest].
  destruct item as [| | | | |kvs]; try discriminate.
  rewrite forest_levels_cons, levels_dict in Hlev.
  cbn [for_each].
  destruct (dict_lookup kvs "children") as [c|] eqn:E.
  2:{ rewrite (extract_channels_item_tree _ kvs acc Hitem).
      - cbn [res_bind]. apply IHrest; [exact Hrest|lia].
      - intros cs acc' E'. congruence. }
  destruct (Nat.le_gt_cases
              (match c with VList cs => forest_levels cs | _ => 0 end) d)
    as [Hfit|Hdeep].
  - rewrite (extract_channels_item_tree _ kvs acc Hitem).
    + cbn [res_bind]. apply IHrest; [exact Hrest|lia].
    + intros cs acc' E' Hne Hcs. rewrite E in E'. injection E' as ->.
      pose proof (forest_levels_positive cs Hcs Hne).
      apply extract_channels_forest; [exact Hcs|lia..].
  - destruct c as [| | | |cs|]; try (cbn in Hdeep; lia).
    rewrite channel_tree_dict, E in Hitem.
    apply andb_true_iff in Hitem as [Hnews Hcs].
    assert (Hne : truthy (VList cs) = true)
      by (destruct cs; [cbn in Hdeep; lia | reflexivity]).
    unfold extract_channels_item. cbn [get res_bind].
    change (eq_str (dict_get kvs "type" VNone) "news") with (is_news (VDict kvs)).
    assert (Hown : exists acc0,
      (if is_news (VDict kvs)
       then do entry <- channel_entry (VDict kvs); Ok (acc ++ [entry])
       else Ok acc) = Ok acc0).
    { destruct (is_news (VDict kvs)).
      - rewrite (channel_entry_ok _ Hnews). by eexists.
      - by eexists. }
    destruct Hown as [acc0 ->]. cbn [res_bind].
    unfold dict_get. rewrite E. cbn [default from_option id]. rewrite Hne.
    by rewrite (IH cs acc0 Hcs Hdeep).
Qed.

(** ** Configuration and the HTTP round trip *)

Lemma get_client_configured environ :
  configured environ = true -> _get_client environ = Ok (client_of environ).
Proof.
  unfold configured, _get_client, client_of.
  intros [H1 H2]%andb_true_iff.
  apply negb_true_iff in H1, H2. by rewrite H1, H2.
Qed.

Lemma get_client_unconfigured environ :
  configured environ = false -> _get_client environ = Raise config_error.
Proof.
  unfold configured, _get_client. intros H.
  apply andb_false_iff in H as [H|H]; apply negb_false_iff in H; rewrite H;
    [reflexivity | by rewrite orb_true_r].
Qed.

Lemma absent_or_empty_unconfigured environ :
  absent_or_empty environ "STAFFBASE_URL" \/ absent_or_empty environ "STAFFBASE_API_KEY" ->
  configured environ = false.
Proof.
  unfold configured, absent_or_empty.
  intros [[H|H]|[H|H]]; rewrite H; cbn; [reflexivity..| |]; apply andb_false_r.
Qed.

(** Without configuration the dispatch raises before anything is sent. *)
Lemma handle_tool_unconfigured depth environ upstream name arguments w :
  configured environ = false ->
  _handle_tool depth environ upstream name arguments w = (Raise config_error, w).
Proof.
  intros H. unfold _handle_tool, io_bind, lift.
  by rewrite (get_client_unconfigured _ H).
Qed.

Lemma handle_tool_configured depth environ upstream name arguments w :
  configured environ = true ->
  _handle_tool depth environ upstream name arguments w
  = (if String.eqb name "list_spaces"
     then handle_list_spaces upstream (client_of environ)
     else if String.eqb name "get_news"
     then handle_get_news upstream (client_of environ) arguments
     else if String.eqb name "list_channels"
     then handle_list_channels depth upstream (client_of environ) arguments
     else if String.eqb name "get_page"
     then handle_get_page upstream (client_of environ) arguments
     else if String.eqb name "search"
     then handle_search upstream (client_of environ) arguments
     else io_ret (dumps (unknown_tool name) None)) w.
Proof.
  intros H. unfold _handle_tool, io_bind, lift.
  by rewrite (get_client_configured _ H).
Qed.

(** One GET: the request is recorded, and the reply decides the outcome. *)
Lemma get_run upstream environ path params w :
  _get upstream (client_of environ) path params w
  = (response (upstream (GET environ path params)), sent w (GET environ path params)).
Proof. reflexivity. Qed.

Lemma not_in_catalog name :
  ~ In name tool_names ->
  String.eqb name "list_spaces" = false /\ String.eqb name "get_news" = false
  /\ String.eqb name "list_channels" = false /\ String.eqb name "get_page" = false
  /\ String.eqb name "search" = false.
Proof.
  intros Hnot. repeat split; apply String.eqb_neq; intros ->; apply Hnot; cbn; tauto.
Qed.

(** The boundary always answers with exactly one text payload. *)
Lemma call_tool_single_payload depth environ upstream name arguments w :
  exists t w', call_tool depth environ upstream name arguments w = ([text_payload t], w').
Proof.
  unfold call_tool.
  destruct (_handle_tool depth environ upstream name arguments w) as [[t|exc] w'];
    eexists _, _; reflexivity.
Qed.

(** The text of an error payload. *)
Lemma error_payload_text exc :
  error_payload exc
  = "{" +:+ dq +:+ "error" +:+ dq +:+ ": " +:+ encode_str (str_exc exc) +:+ "}".
Proof. reflexivity. Qed.

(** ** The tool-call boundary *)

(** C1.  Whatever exception the dispatch raises, [call_tool] catches it:
    it answers with a single text payload whose body is the JSON object
    with the one key error and [str] of the exception as its value (and
    logs the failure); nothing is raised past the boundary. *)
Theorem call_tool_catches depth environ upstream name arguments w exc w' :
  _handle_tool depth environ upstream name arguments w = (Raise exc, w') ->
  call_tool depth environ upstream name arguments w
  = ([{| type := "text";
         text := dumps (VDict [("error", VStr (str_exc exc))]) None |}],
     log ("Tool " +:+ name +:+ " failed") w').
Proof. intros H. unfold call_tool. by rewrite H. Qed.

Lemma call_tool_catches_witness :
  _handle_tool Sample.depth ∅ (fun _ => ReplyFailed "unreachable") "get_page" [] world0
  = (Raise config_error, world0)
  /\ call_tool Sample.depth ∅ (fun _ => ReplyFailed "unreachable") "get_page" [] world0
     = ([{| type := "text";
            text := dumps (VDict [("error", VStr (str_exc config_error))]) None |}],
        log "Tool get_page failed" world0).
Proof.
  split; [reflexivity|].
  apply (call_tool_catches Sample.depth ∅ (fun _ => ReplyFailed "unreachable") "get_page" []
           world0 config_error world0).
  reflexivity.
Defined.

(** C4.  When [STAFFBASE_URL] or [STAFFBASE_API_KEY] is absent or empty,
    every call, whatever the tool name and the arguments, answers with the
    error payload of the configuration error, whose message names both
    variables, and sends no request. *)
Theorem missing_configuration depth environ upstream name arguments w :
  absent_or_empty environ "STAFFBASE_URL" \/ absent_or_empty environ "STAFFBASE_API_KEY" ->
  call_tool depth environ upstream name arguments w
  = ([{| type := "text";
         text := dumps (VDict [("error", VStr (str_exc config_error))]) None |}],
     log ("Tool " +:+ name +:+ " failed") w)
  /\ requests (snd (call_tool depth environ upstream name arguments w)) = requests w
  /\ contains (str_exc config_error) "STAFFBASE_URL" = true
  /\ contains (str_exc config_error) "STAFFBASE_API_KEY" = true.
Proof.
  intros H%absent_or_empty_unconfigured.
  pose proof (handle_tool_unconfigured depth environ upstream name arguments w H) as Hh.
  unfold call_tool. rewrite Hh. by repeat split.
Qed.

Lemma missing_configuration_witness :
  (absent_or_empty (<["STAFFBASE_URL" := "https://intranet.example"]> ∅) "STAFFBASE_URL"
   \/ absent_or_empty (<["STAFFBASE_URL" := "https://intranet.example"]> ∅)
        "STAFFBASE_API_KEY")
  /\ requests (snd (call_tool Sample.depth (<["STAFFBASE_URL" := "https://intranet.example"]> ∅)
                      (fun _ => ReplyJson (VList [])) "list_spaces" [] world0))
     = [].
Proof.
  assert (H : absent_or_empty (<["STAFFBASE_URL" := "https://intranet.example"]> ∅)
                "STAFFBASE_URL"
              \/ absent_or_empty (<["STAFFBASE_URL" := "https://intranet.example"]> ∅)
                   "STAFFBASE_API_KEY")
    by (right; left; reflexivity).
  split; [exact H|].
  exact (proj1 (proj2 (missing_configuration _ _ (fun _ => ReplyJson (VList []))
                         "list_spaces" [] world0 H))).
Defined.

(** C3, as the code has it.  A name outside the catalog never causes a
    request; when both configuration values are present and non-empty the
    answer is the serialized object whose error is Unknown tool and the
    name. *)
Theorem unknown_tool_configured depth environ upstream name arguments w :
  ~ In name tool_names ->
  requests (snd (call_tool depth environ upstream name arguments w)) = requests w
  /\ (configured environ = true ->
      call_tool depth environ upstream name arguments w
      = ([{| type := "text";
             text := dumps (VDict [("error", VStr ("Unknown tool: " +:+ name))]) None |}],
         w)).
Proof.
  intros (H1 & H2 & H3 & H4 & H5)%not_in_catalog.
  assert (Hc : configured environ = true ->
    _handle_tool depth environ upstream name arguments w
    = (Ok (dumps (unknown_tool name) None), w)).
  { intros Hc. rewrite (handle_tool_configured _ _ _ _ _ _ Hc).
    by rewrite H1, H2, H3, H4, H5. }
  unfold call_tool. destruct (configured environ) eqn:E.
  - rewrite (Hc eq_refl). by split.
  - rewrite (handle_tool_unconfigured _ _ _ _ _ _ E). by split.
Qed.

Lemma unknown_tool_configured_witness :
  ~ In "delete_page" tool_names
  /\ requests (snd (call_tool Sample.depth ∅ (fun _ => ReplyJson VNone) "delete_page" [] world0)) = [].
Proof.
  assert (H : ~ In "delete_page" tool_names)
    by (cbn; intros [?|[?|[?|[?|[?|[]]]]]]; discriminate).
  split; [exact H|].
  exact (proj1 (unknown_tool_configured Sample.depth ∅ (fun _ => ReplyJson VNone) "delete_page" []
                  world0 H)).
Defined.

(** C3 as stated fails without configuration: the configuration error
    comes first, also for a name outside the catalog. *)
Lemma unknown_tool_unconfigured :
  ~ In "delete_page" tool_names
  /\ fst (call_tool Sample.depth ∅ (fun _ => ReplyJson VNone) "delete_page" [] world0)
     = [{| type := "text";
           text := dumps (VDict [("error", VStr (str_exc config_error))]) None |}]
  /\ fst (call_tool Sample.depth ∅ (fun _ => ReplyJson VNone) "delete_page" [] world0)
     <> [{| type := "text";
            text := dumps (VDict [("error", VStr "Unknown tool: delete_page")]) None |}].
Proof.
  split; [cbn; intros [?|[?|[?|[?|[?|[]]]]]]; discriminate|].
  split; [reflexivity|]. vm_compute. discriminate.
Qed.

(** ** list_channels *)

Lemma io_bind_run {A B} (c : io A) (k : A -> io B) w r w' :
  c w = (r, w') ->
  io_bind c k w = match r with Ok a => k a w' | Raise e => (Raise e, w') end.
Proof. intros H. unfold io_bind. rewrite H. by destruct r. Qed.

Lemma res_bind_ok {A} (r : res A) : (do a <- r; Ok a) = r.
Proof. by destruct r. Qed.

Lemma subscript_arguments arguments k v :
  dict_lookup arguments k = Some v -> subscript (VDict arguments) k = Ok v.
Proof. intros H. cbn [subscript]. by rewrite H. Qed.

(** C2, as the code has it.  On a forest of channel trees whose nesting
    fits the recursion depth the interpreter leaves to the walk,
    [list_channels] gives one entry for every node whose type is news and
    no other, in depth-first order with a node before what is below it: a
    node of type news that has children contributes its entry and then its
    children are walked. *)
Theorem list_channels_depth_first depth environ upstream arguments space_id body items w :
  configured environ = true ->
  dict_lookup arguments "space_id" = Some space_id ->
  upstream (GET environ ("/api/spaces/" +:+ str space_id +:+ "/news") None)
  = ReplyJson body ->
  unwrap body = VList items ->
  forallb channel_tree items = true ->
  0 < depth -> forest_levels items <= depth ->
  _extract_channels depth (VList items) None
  = Ok (map entry_of (List.filter is_news (forest_preorder items)))
  /\ _handle_tool depth environ upstream "list_channels" arguments w
     = (Ok (dumps (VList (map entry_of (List.filter is_news (forest_preorder items))))
              (Some 2)),
        sent w (GET environ ("/api/spaces/" +:+ str space_id +:+ "/news") None)).
Proof.
  intros Hc Hid Hup Hbody Hwf Hd Hlev.
  assert (Hwalk : _extract_channels depth (VList items) None
                  = Ok (map entry_of (List.filter is_news (forest_preorder items)))).
  { unfold _extract_channels.
    assert (Hnone : forall d, extract_channels_depth d (VList items) None
                              = extract_channels_depth d (VList items) (Some []))
      by (by intros [|d]).
    rewrite Hnone. by rewrite extract_channels_forest. }
  split; [exact Hwalk|].
  rewrite (handle_tool_configured _ _ _ _ _ _ Hc). cbn [String.eqb Ascii.eqb Bool.eqb].
  unfold handle_list_channels.
  rewrite (io_bind_run _ _ w (Ok space_id) w)
    by (unfold lift; by rewrite (subscript_arguments _ _ _ Hid)).
  unfold get_space_news.
  rewrite (io_bind_run _ _ w (Ok (VList items))
             (sent w (GET environ ("/api/spaces/" +:+ str space_id +:+ "/news") None))).
  - unfold io_bind, lift, io_ret. by rewrite Hwalk.
  - unfold io_bind, io_ret. rewrite get_run, Hup. cbn [response]. by rewrite Hbody.
Qed.

Lemma list_channels_depth_first_witness :
  forallb channel_tree Sample.menu = true
  /\ forest_levels Sample.menu <= 3
  /\ _extract_channels 3 (VList Sample.menu) None
     = Ok [VDict [("name", VStr "A"); ("installation_id", VStr "a")];
           VDict [("name", VStr "B"); ("installation_id", VStr "b")];
           VDict [("name", VStr ""); ("installation_id", VStr "")]].
Proof.
  split; [reflexivity|]. split; [cbn; lia|].
  exact (proj1 (list_channels_depth_first 3 Sample.environ
                  (Sample.serve (VDict [("data", VList Sample.menu)]))
                  [("space_id", VStr "hq")] (VStr "hq")
                  (VDict [("data", VList Sample.menu)]) Sample.menu world0
                  eq_refl eq_refl eq_refl eq_refl eq_refl
                  ltac:(lia) ltac:(cbn; lia))).
Defined.

(** C2 as stated fails beyond the recursion depth.  A channel tree of one
    news node under 1000 folders is finite and has one node of type news,
    but with the 1000 nested calls a CPython allows at most, the walk
    raises [RecursionError] and the tool answers with the error payload
    instead of the list of one entry. *)
Lemma list_channels_beyond_recursion_depth :
  forallb channel_tree [Sample.nested 1000] = true
  /\ List.filter is_news (forest_preorder [Sample.nested 1000])
     = [VDict [("type", VStr "news"); ("id", VStr "deep")]]
  /\ _extract_channels Sample.depth (VList [Sample.nested 1000]) None
     = Raise (RecursionError "maximum recursion depth exceeded")
  /\ fst (call_tool Sample.depth Sample.environ
            (Sample.serve (VList [Sample.nested 1000])) "list_channels"
            [("space_id", VStr "hq")] world0)
     = [{| type := "text";
           text := dumps (VDict [("error", VStr "maximum recursion depth exceeded")])
                     None |}]
  /\ fst (call_tool Sample.depth Sample.environ
            (Sample.serve (VList [Sample.nested 1000])) "list_channels"
            [("space_id", VStr "hq")] world0)
     <> [{| type := "text";
            text := dumps (VList (map entry_of
                                    (List.filter is_news
                                       (forest_preorder [Sample.nested 1000]))))
                      (Some 2) |}].
Proof.
  split; [vm_compute; reflexivity|]. split; [vm_compute; reflexivity|].
  split; [vm_compute; reflexivity|]. split; [vm_compute; reflexivity|].
  vm_compute. discriminate.
Qed.



(** ** get_news *)

(** Without a channel the global feed is fetched, unwrapped, cut to the
    limit and reshaped. *)
Lemma get_news_result_global environ upstream arguments w :
  truthy (dict_get arguments "channel_id" VNone) = false ->
  get_news_result upstream (client_of environ) arguments w
  = ((do data <- response (upstream (GET environ "/api/posts"
                                       (posts_params (dict_get arguments "limit" (VInt 10)))));
      do shown <- shown_posts (unwrap data) (dict_get arguments "limit" (VInt 10));
      map_res news_entry shown),
     sent w (GET environ "/api/posts"
               (posts_params (dict_get arguments "limit" (VInt 10))))).
Proof.
  intros Hc. unfold get_news_result. rewrite Hc.
  unfold get_global_posts, io_bind, io_ret, lift. rewrite get_run.
  fold (posts_params (dict_get arguments "limit" (VInt 10))).
  destruct (response _) as [data|e]; cbn [res_bind]; [|reflexivity].
  f_equal. unfold shown_posts.
  destruct (match unwrap data with VList xs => _ | _ => Ok [] end) as [shown|e];
    cbn [res_bind]; [|reflexivity].
  by rewrite for_each_append, res_bind_ok.
Qed.

(** With a channel the feed of that channel is fetched instead. *)
Lemma get_news_result_channel environ upstream arguments w :
  truthy (dict_get arguments "channel_id" VNone) = true ->
  get_news_result upstream (client_of environ) arguments w
  = ((do data <- response (upstream
                   (GET environ
                      ("/api/channels/" +:+ str (dict_get arguments "channel_id" VNone)
                       +:+ "/posts")
                      (posts_params (dict_get arguments "limit" (VInt 10)))));
      do shown <- shown_posts (unwrap data) (dict_get arguments "limit" (VInt 10));
      map_res news_entry shown),
     sent w (GET environ
               ("/api/channels/" +:+ str (dict_get arguments "channel_id" VNone)
                +:+ "/posts")
               (posts_params (dict_get arguments "limit" (VInt 10))))).
Proof.
  intros Hc. unfold get_news_result. rewrite Hc.
  unfold get_channel_posts, io_bind, io_ret, lift. rewrite get_run.
  fold (posts_params (dict_get arguments "limit" (VInt 10))).
  destruct (response _) as [data|e]; cbn [res_bind]; [|reflexivity].
  f_equal. unfold shown_posts.
  destruct (match unwrap data with VList xs => _ | _ => Ok [] end) as [shown|e];
    cbn [res_bind]; [|reflexivity].
  by rewrite for_each_append, res_bind_ok.
Qed.

(** The tool serializes the result list, or passes the exception on. *)
Lemma handle_get_news_run depth environ upstream arguments w :
  configured environ = true ->
  _handle_tool depth environ upstream "get_news" arguments w
  = ((do result <- fst (get_news_result upstream (client_of environ) arguments w);
      Ok (dumps (VList result) (Some 2))),
     snd (get_news_result upstream (client_of environ) arguments w)).
Proof.
  intros Hc. rewrite (handle_tool_configured _ _ _ _ _ _ Hc).
  cbn [String.eqb Ascii.eqb Bool.eqb]. unfold handle_get_news, io_bind, io_ret.
  by destruct (get_news_result _ _ _ _) as [[result|e] w'].
Qed.

Lemma channel_id_given arguments cid :
  dict_lookup arguments "channel_id" = Some (VStr cid) -> cid <> "" ->
  dict_get arguments "channel_id" VNone = VStr cid
  /\ truthy (dict_get arguments "channel_id" VNone) = true.
Proof.
  intros H Hne. unfold dict_get. rewrite H. cbn. split; [reflexivity|].
  apply negb_true_iff. by apply String.eqb_neq.
Qed.

Lemma channel_id_missing arguments :
  dict_lookup arguments "channel_id" = None
  \/ dict_lookup arguments "channel_id" = Some (VStr "") ->
  truthy (dict_get arguments "channel_id" VNone) = false.
Proof. unfold dict_get. by intros [-> | ->]. Qed.

(** C5.  [get_news] with a channel id that is present and not empty sends
    its one request to the endpoint of that channel, and an answer that
    wraps the list of posts under the key data gives the same output as an
    answer that is the bare list; with no channel id, or an empty one, the
    request goes to the global posts endpoint. *)
Theorem get_news_channel depth environ arguments w :
  configured environ = true ->
  (forall upstream cid,
     dict_lookup arguments "channel_id" = Some (VStr cid) -> cid <> "" ->
     snd (_handle_tool depth environ upstream "get_news" arguments w)
     = sent w (GET environ ("/api/channels/" +:+ cid +:+ "/posts")
                 (posts_params (dict_get arguments "limit" (VInt 10)))))
  /\ (forall up1 up2 cid envelope posts,
        dict_lookup arguments "channel_id" = Some (VStr cid) -> cid <> "" ->
        up1 (GET environ ("/api/channels/" +:+ cid +:+ "/posts")
               (posts_params (dict_get arguments "limit" (VInt 10))))
        = ReplyJson (VDict envelope) ->
        dict_lookup envelope "data" = Some (VList posts) ->
        up2 (GET environ ("/api/channels/" +:+ cid +:+ "/posts")
               (posts_params (dict_get arguments "limit" (VInt 10))))
        = ReplyJson (VList posts) ->
        _handle_tool depth environ up1 "get_news" arguments w
        = _handle_tool depth environ up2 "get_news" arguments w)
  /\ (forall upstream,
        dict_lookup arguments "channel_id" = None
        \/ dict_lookup arguments "channel_id" = Some (VStr "") ->
        snd (_handle_tool depth environ upstream "get_news" arguments w)
        = sent w (GET environ "/api/posts"
                    (posts_params (dict_get arguments "limit" (VInt 10))))).
Proof.
  intros Hc. split; [|split].
  - intros upstream cid Hid Hne.
    destruct (channel_id_given _ _ Hid Hne) as [Hget Ht].
    rewrite (handle_get_news_run _ _ _ _ _ Hc), (get_news_result_channel _ _ _ _ Ht).
    by rewrite Hget.
  - intros up1 up2 cid envelope posts Hid Hne H1 Hdata H2.
    destruct (channel_id_given _ _ Hid Hne) as [Hget Ht].
    rewrite !(handle_get_news_run _ _ _ _ _ Hc), !(get_news_result_channel _ _ _ _ Ht).
    rewrite Hget. cbn [str fst snd]. rewrite H1, H2. cbn [response res_bind unwrap].
    unfold dict_get at 1. by rewrite Hdata.
  - intros upstream Hno.
    rewrite (handle_get_news_run _ _ _ _ _ Hc).
    by rewrite (get_news_result_global _ _ _ _ (channel_id_missing _ Hno)).
Qed.

Lemma get_news_channel_witness :
  configured Sample.environ = true
  /\ snd (_handle_tool Sample.depth Sample.environ (Sample.serve (VList [])) "get_news"
            [("channel_id", VStr "abc")] world0)
     = sent world0 (GET Sample.environ "/api/channels/abc/posts"
                      (posts_params (VInt 10))).
Proof.
  split; [reflexivity|].
  exact (proj1 (get_news_channel Sample.depth Sample.environ [("channel_id", VStr "abc")] world0
                  eq_refl)
           (Sample.serve (VList [])) "abc" eq_refl ltac:(discriminate)).
Defined.

Lemma slice_upto_nonneg {A} (n : Z) (xs : list A) :
  (0 <= n)%Z -> slice_upto n xs = take (Z.to_nat n) xs.
Proof.
  intros Hn. unfold slice_upto.
  destruct (n <? 0)%Z eqn:E; [|reflexivity]. apply Z.ltb_lt in E. lia.
Qed.

(** C6, as the code has it.  [get_news] without a channel id sends its one
    request to the global posts endpoint with the limit it was given, 10
    by default.  For a limit that is an integer and not negative, an
    answer that holds a list is cut to its first limit posts before they
    are reshaped, so a result list has at most limit entries; an answer
    that holds no list gives the empty result, whatever the limit. *)
Theorem get_news_global depth environ upstream arguments w body :
  configured environ = true ->
  dict_lookup arguments "channel_id" = None ->
  upstream (GET environ "/api/posts" (posts_params (dict_get arguments "limit" (VInt 10))))
  = ReplyJson body ->
  snd (_handle_tool depth environ upstream "get_news" arguments w)
  = sent w (GET environ "/api/posts" (posts_params (dict_get arguments "limit" (VInt 10))))
  /\ (forall posts n,
        unwrap body = VList posts ->
        dict_get arguments "limit" (VInt 10) = VInt n -> (0 <= n)%Z ->
        fst (get_news_result upstream (client_of environ) arguments w)
        = map_res news_entry (take (Z.to_nat n) posts)
        /\ forall result,
             fst (get_news_result upstream (client_of environ) arguments w) = Ok result ->
             (Z.of_nat (length result) <= n)%Z
             /\ fst (_handle_tool depth environ upstream "get_news" arguments w)
                = Ok (dumps (VList result) (Some 2)))
  /\ (isinstance_list (unwrap body) = false ->
      fst (_handle_tool depth environ upstream "get_news" arguments w) = Ok "[]").
Proof.
  intros Hc Hno Hup.
  pose proof (channel_id_missing arguments (or_introl Hno)) as Ht.
  rewrite (handle_get_news_run _ _ _ _ _ Hc), (get_news_result_global _ _ _ _ Ht).
  rewrite Hup. cbn [response res_bind fst snd].
  split; [reflexivity|]. split.
  - intros posts n Hbody Hlimit Hn. rewrite Hbody, Hlimit.
    cbn [shown_posts list_slice slice_bound res_bind].
    rewrite (slice_upto_nonneg _ _ Hn).
    split; [reflexivity|]. intros result Hres. rewrite Hres. split; [|reflexivity].
    apply map_res_length in Hres. rewrite Hres, length_take. lia.
  - intros Hnl. by destruct (unwrap body).
Qed.

Lemma get_news_global_witness :
  configured Sample.environ = true
  /\ dict_lookup [("limit", VInt 1)] "channel_id" = None
  /\ fst (_handle_tool Sample.depth Sample.environ (Sample.serve (VDict [("total", VInt 0)]))
            "get_news" [("limit", VInt 1)] world0)
     = Ok "[]".
Proof.
  split; [reflexivity|]. split; [reflexivity|].
  exact (proj2 (proj2 (get_news_global Sample.depth Sample.environ
                         (Sample.serve (VDict [("total", VInt 0)]))
                         [("limit", VInt 1)] world0 (VDict [("total", VInt 0)])
                         eq_refl eq_refl eq_refl))
           eq_refl).
Defined.

(** Three posts upstream and a limit of 2: two entries. *)
Example get_news_limit_two :
  exists result,
    fst (get_news_result
           (Sample.serve (VDict [("data", VList [Sample.post_with_teaser "one";
                                                 Sample.post_with_teaser "two";
                                                 Sample.post_with_teaser "three"])]))
           (client_of Sample.environ) [("limit", VInt 2)] world0)
    = Ok result
    /\ length result = 2.
Proof. eexists. split; [vm_compute; reflexivity | reflexivity]. Qed.

(** C6 as stated fails for a negative limit: the slice then drops posts
    from the end, and what is left is longer than the limit. *)
Lemma get_news_negative_limit :
  exists result,
    dict_lookup [("limit", VInt (-1))] "channel_id" = None
    /\ fst (get_news_result
              (Sample.serve (VList [Sample.post_with_teaser "one";
                                    Sample.post_with_teaser "two";
                                    Sample.post_with_teaser "three"]))
              (client_of Sample.environ) [("limit", VInt (-1))] world0)
       = Ok result
    /\ fst (_handle_tool Sample.depth Sample.environ
              (Sample.serve (VList [Sample.post_with_teaser "one";
                                    Sample.post_with_teaser "two";
                                    Sample.post_with_teaser "three"]))
              "get_news" [("limit", VInt (-1))] world0)
       = Ok (dumps (VList result) (Some 2))
    /\ length result = 2
    /\ ~ (Z.of_nat (length result) <= -1)%Z.
Proof.
  eexists. split; [reflexivity|]. split; [vm_compute; reflexivity|].
  split; [vm_compute; reflexivity|]. split; [reflexivity|]. cbn. lia.
Qed.

(** ** Truncation *)

Lemma str_take_length n s : String.length (str_take n s) = Nat.min n (String.length s).
Proof.
  unfold str_take. revert n.
  induction s as [|c s IH]; intros [|n]; cbn; try reflexivity.
  by rewrite IH.
Qed.

Lemma str_take_all n s : String.length s <= n -> str_take n s = s.
Proof.
  unfold str_take. revert n.
  induction s as [|c s IH]; intros [|n] H; cbn in *; try reflexivity; [lia|].
  rewrite IH; [reflexivity | lia].
Qed.

Lemma str_slice_upto_length n s :
  (0 <= n)%Z ->
  Z.of_nat (String.length (str_slice_upto n s)) = Z.min n (Z.of_nat (String.length s)).
Proof.
  intros Hn. unfold str_slice_upto.
  destruct (n <? 0)%Z eqn:E; [apply Z.ltb_lt in E; lia|].
  rewrite str_take_length. lia.
Qed.

Lemma str_slice_upto_short n s :
  (Z.of_nat (String.length s) <= n)%Z -> str_slice_upto n s = s.
Proof.
  intros Hn. unfold str_slice_upto.
  destruct (n <? 0)%Z eqn:E; [apply Z.ltb_lt in E; lia|].
  apply str_take_all. lia.
Qed.

(** The locale and content object picked from a mapping whose first locale
    is a non-empty key. *)
Lemma pick_locale_first locale c more :
  locale <> "" ->
  pick_locale (VDict ((locale, c) :: more)) = Ok (VStr locale, c).
Proof.
  intros Hne. unfold pick_locale, first_or_none. cbn [iterate res_bind map hd fst].
  rewrite truthy_str. apply String.eqb_neq in Hne. rewrite Hne.
  cbn [negb get_key res_bind]. unfold dict_get. rewrite dict_lookup_cons.
  by rewrite String.eqb_refl.
Qed.

Lemma or_else_locale locale : locale <> "" -> or_else (VStr locale) (VStr "") = VStr locale.
Proof.
  intros Hne. unfold or_else. rewrite truthy_str.
  apply String.eqb_neq in Hne. by rewrite Hne.
Qed.

(** The entry of a post whose first locale has a teaser that is text. *)
Lemma news_entry_teaser kvs locale c more s :
  dict_lookup kvs "contents" = Some (VDict ((locale, VDict c) :: more)) ->
  locale <> "" ->
  dict_lookup c "teaser" = Some (VStr s) ->
  news_entry (VDict kvs)
  = Ok (VDict [("id", dict_get kvs "id" (VStr ""));
               ("title", dict_get c "title" (VStr ""));
               ("teaser", VStr (str_slice_upto 200 s));
               ("published", dict_get kvs "publishedAt" (VStr ""));
               ("locale", VStr locale)]).
Proof.
  intros Hcontents Hne Htext.
  assert (Hc : dict_get kvs "contents" (VDict []) = VDict ((locale, VDict c) :: more))
    by (unfold dict_get; by rewrite Hcontents).
  assert (Ht : dict_get c "teaser" (VStr "") = VStr s)
    by (unfold dict_get; by rewrite Htext).
  unfold news_entry. cbn [get res_bind]. rewrite Hc.
  rewrite (pick_locale_first _ _ _ Hne). cbn [res_bind get]. rewrite Ht.
  cbn [slice_const res_bind]. by rewrite (or_else_locale _ Hne).
Qed.

(** The object of a page whose first locale has a content that is text. *)
Lemma page_entry_content kvs locale c more s :
  dict_lookup kvs "contents" = Some (VDict ((locale, VDict c) :: more)) ->
  locale <> "" ->
  dict_lookup c "content" = Some (VStr s) ->
  page_entry (VDict kvs)
  = Ok (VDict [("id", dict_get kvs "id" (VStr ""));
               ("title", dict_get c "title" (VStr ""));
               ("content", VStr (str_slice_upto 5000 s));
               ("locale", VStr locale);
               ("updated", dict_get kvs "updatedAt" (VStr ""))]).
Proof.
  intros Hcontents Hne Htext.
  assert (Hc : dict_get kvs "contents" (VDict []) = VDict ((locale, VDict c) :: more))
    by (unfold dict_get; by rewrite Hcontents).
  assert (Ht : dict_get c "content" (VStr "") = VStr s)
    by (unfold dict_get; by rewrite Htext).
  unfold page_entry. cbn [get res_bind]. rewrite Hc.
  rewrite (pick_locale_first _ _ _ Hne). cbn [res_bind get]. rewrite Ht.
  cbn [slice_const res_bind]. by rewrite (or_else_locale _ Hne).
Qed.

(** The truncation seen at the tool: a teaser of 500 characters leaves
    [get_news] with 200, a page content of 10000 leaves [get_page] with
    5000. *)
Example get_news_teaser_500 :
  fst (_handle_tool Sample.depth Sample.environ
         (Sample.serve (VList [Sample.post_with_teaser (Sample.replicate_char 500 "x")]))
         "get_news" [] world0)
  = Ok (dumps (VList [VDict [("id", VStr "p1"); ("title", VStr "T");
                             ("teaser", VStr (Sample.replicate_char 200 "x"));
                             ("published", VStr "2024-05-01"); ("locale", VStr "en")]])
          (Some 2)).
Proof. vm_compute. reflexivity. Qed.

Example get_page_content_10000 :
  fst (_handle_tool Sample.depth Sample.environ
         (Sample.serve
            (VDict [("id", VStr "7");
                    ("contents",
                     VDict [("en", VDict [("content",
                                           VStr (Sample.replicate_char (Z.to_nat 10000) "y"))])])]))
         "get_page" [("page_id", VStr "7")] world0)
  = Ok (dumps (VDict [("id", VStr "7"); ("title", VStr "");
                      ("content", VStr (Sample.replicate_char 5000 "y"));
                      ("locale", VStr "en"); ("updated", VStr "")])
          (Some 2)).
Proof. vm_compute. reflexivity. Qed.

(** ** get_page *)





(** The text of that answer, line by line. *)
Example get_page_example_text :
  dumps (VDict [("id", VStr "42"); ("title", VStr "Hi"); ("content", VStr "Body");
                ("locale", VStr "en"); ("updated", VStr "2024-01-01")])
    (Some 2)
  = join newline
      [ "{";
        "  " +:+ dq +:+ "id" +:+ dq +:+ ": " +:+ dq +:+ "42" +:+ dq +:+ ",";
        "  " +:+ dq +:+ "title" +:+ dq +:+ ": " +:+ dq +:+ "Hi" +:+ dq +:+ ",";
        "  " +:+ dq +:+ "content" +:+ dq +:+ ": " +:+ dq +:+ "Body" +:+ dq +:+ ",";
        "  " +:+ dq +:+ "locale" +:+ dq +:+ ": " +:+ dq +:+ "en" +:+ dq +:+ ",";
        "  " +:+ dq +:+ "updated" +:+ dq +:+ ": " +:+ dq +:+ "2024-01-01" +:+ dq;
        "}" ].
Proof. reflexivity. Qed.

(** ** list_spaces *)

Lemma space_entry_has_id s : has_id s = true -> space_entry s = Ok (space_view s).
Proof.
  destruct s as [| | | | |kvs]; try discriminate.
  unfold has_id, space_entry, space_view. cbn [subscript get res_bind]. unfold dict_get.
  by destruct (dict_lookup kvs "id").
Qed.

Lemma space_entry_no_id s : has_id s = false -> is_ok (space_entry s) = false.
Proof.
  destruct s as [| | | | |kvs]; try reflexivity.
  unfold has_id, space_entry. cbn [subscript].
  by destruct (dict_lookup kvs "id").
Qed.

Lemma space_entry_missing_key kvs :
  has_id (VDict kvs) = false -> space_entry (VDict kvs) = Raise (KeyError (repr_str "id")).
Proof.
  unfold has_id, space_entry. cbn [subscript].
  by destruct (dict_lookup kvs "id").
Qed.

Lemma map_res_is_ok {A B} (f : A -> res B) xs :
  is_ok (map_res f xs) = forallb (fun x => is_ok (f x)) xs.
Proof.
  induction xs as [|x xs IH]; [reflexivity|]. cbn [map_res forallb].
  destruct (f x) as [y|e]; cbn [res_bind is_ok andb]; [|reflexivity].
  rewrite <- IH. by destruct (map_res f xs).
Qed.

Lemma space_entries_is_ok spaces :
  is_ok (map_res space_entry spaces) = forallb has_id spaces.
Proof.
  rewrite map_res_is_ok. induction spaces as [|s spaces IH]; [reflexivity|].
  cbn [forallb]. rewrite IH. f_equal.
  destruct (has_id s) eqn:E.
  - by rewrite (space_entry_has_id _ E).
  - by apply space_entry_no_id.
Qed.

(** Among objects, the first one without an id raises the missing-key
    exception. *)
Lemma space_entries_missing_key spaces :
  forallb isinstance_dict spaces = true -> forallb has_id spaces = false ->
  map_res space_entry spaces = Raise (KeyError (repr_str "id")).
Proof.
  induction spaces as [|s spaces IH]; [discriminate|]. cbn [forallb map_res].
  intros [Hd Hds]%andb_true_iff Hid.
  destruct s as [| | | | |kvs]; try discriminate.
  destruct (has_id (VDict kvs)) eqn:E.
  - rewrite (space_entry_has_id _ E). cbn [res_bind]. by rewrite IH.
  - by rewrite (space_entry_missing_key _ E).
Qed.

Lemma handle_list_spaces_run depth environ upstream arguments w :
  configured environ = true ->
  _handle_tool depth environ upstream "list_spaces" arguments w
  = ((do data <- response (upstream (spaces_request environ));
      do spaces <- iterate (unwrap data);
      do result <- map_res space_entry spaces;
      Ok (dumps (VList result) (Some 2))),
     sent w (spaces_request environ)).
Proof.
  intros Hc. rewrite (handle_tool_configured _ _ _ _ _ _ Hc).
  cbn [String.eqb Ascii.eqb Bool.eqb].
  unfold handle_list_spaces, list_spaces_result, list_spaces, io_bind, io_ret, lift.
  rewrite get_run. fold (spaces_request environ).
  destruct (response _) as [data|e]; cbn [res_bind]; [|reflexivity].
  destruct (iterate (unwrap data)) as [spaces|e]; cbn [res_bind]; [|reflexivity].
  rewrite for_each_append.
  by destruct (map_res space_entry spaces).
Qed.

(** C10.  [list_spaces] on an upstream list of spaces succeeds exactly
    when every element is an object with an id key.  Then each element is
    shown with its id and its name, the name empty when the element has
    none.  Otherwise the call answers with an error payload; when the
    elements are objects, it reports the missing key id. *)
Theorem list_spaces_needs_ids depth environ upstream arguments body spaces w :
  configured environ = true ->
  upstream (spaces_request environ) = ReplyJson body ->
  unwrap body = VList spaces ->
  is_ok (fst (_handle_tool depth environ upstream "list_spaces" arguments w))
  = forallb has_id spaces
  /\ (forallb has_id spaces = true ->
      call_tool depth environ upstream "list_spaces" arguments w
      = ([{| type := "text";
             text := dumps (VList (map space_view spaces)) (Some 2) |}],
         sent w (spaces_request environ)))
  /\ (forallb has_id spaces = false ->
      exists exc,
        _handle_tool depth environ upstream "list_spaces" arguments w
        = (Raise exc, sent w (spaces_request environ))
        /\ call_tool depth environ upstream "list_spaces" arguments w
           = ([{| type := "text";
                  text := dumps (VDict [("error", VStr (str_exc exc))]) None |}],
              log "Tool list_spaces failed" (sent w (spaces_request environ))))
  /\ (forallb isinstance_dict spaces = true -> forallb has_id spaces = false ->
      call_tool depth environ upstream "list_spaces" arguments w
      = ([{| type := "text";
             text := dumps (VDict [("error", VStr (sq +:+ "id" +:+ sq))]) None |}],
         log "Tool list_spaces failed" (sent w (spaces_request environ))))
  /\ (forall kvs id,
        In (VDict kvs) spaces ->
        dict_lookup kvs "id" = Some id -> dict_lookup kvs "name" = None ->
        space_view (VDict kvs) = VDict [("id", id); ("name", VStr "")]).
Proof.
  intros Hc Hup Hbody.
  pose proof (handle_list_spaces_run depth environ upstream arguments w Hc) as Hrun.
  rewrite Hup in Hrun. cbn [response res_bind] in Hrun.
  rewrite Hbody in Hrun. cbn [iterate res_bind] in Hrun.
  pose proof (space_entries_is_ok spaces) as Hok.
  unfold call_tool. rewrite Hrun. clear Hrun.
  split; [|split; [|split; [|split]]].
  - cbn [fst]. rewrite <- Hok. by destruct (map_res space_entry spaces).
  - intros Hall.
    rewrite (map_res_total space_entry space_view spaces). { reflexivity. }
    intros s Hs. apply space_entry_has_id.
    rewrite forallb_forall in Hall. by apply Hall.
  - intros Hnot. rewrite Hnot in Hok.
    destruct (map_res space_entry spaces) as [result|exc]; [discriminate|].
    by exists exc.
  - intros Hd Hnot. by rewrite (space_entries_missing_key _ Hd Hnot).
  - intros kvs id _ Hid Hname. unfold space_view, dict_get. by rewrite Hid, Hname.
Qed.

Lemma list_spaces_needs_ids_witness :
  configured Sample.environ = true
  /\ call_tool Sample.depth Sample.environ
       (Sample.serve (VDict [("data", VList [VDict [("id", VStr "1"); ("name", VStr "HQ")];
                                             VDict [("id", VStr "2")]])]))
       "list_spaces" [] world0
     = ([{| type := "text";
            text := dumps (VList [VDict [("id", VStr "1"); ("name", VStr "HQ")];
                                  VDict [("id", VStr "2"); ("name", VStr "")]])
                      (Some 2) |}],
        sent world0 (spaces_request Sample.environ)).
Proof.
  split; [reflexivity|].
  exact (proj1 (proj2 (list_spaces_needs_ids Sample.depth Sample.environ
                         (Sample.serve
                            (VDict [("data",
                                     VList [VDict [("id", VStr "1"); ("name", VStr "HQ")];
                                            VDict [("id", VStr "2")]])]))
                         [] _ _ world0 eq_refl eq_refl eq_refl))
           eq_refl).
Defined.

(** An element without an id: the whole call reports the missing key. *)
Example list_spaces_missing_id :
  fst (call_tool Sample.depth Sample.environ
         (Sample.serve (VList [VDict [("id", VStr "1")]; VDict [("name", VStr "Lab")]]))
         "list_spaces" [] world0)
  = [{| type := "text";
        text := "{" +:+ dq +:+ "error" +:+ dq +:+ ": " +:+ dq +:+ "'id'" +:+ dq +:+ "}" |}].
Proof. reflexivity. Qed.

(** ** The other faults at the boundary *)

Example transport_error_payload :
  fst (call_tool Sample.depth Sample.environ (fun _ => ReplyFailed "timed out") "search"
         [("query", VStr "canteen")] world0)
  = [{| type := "text"; text := dumps (VDict [("error", VStr "timed out")]) None |}].
Proof. reflexivity. Qed.

Example http_error_payload :
  fst (call_tool Sample.depth Sample.environ (fun _ => ReplyStatus "Client error '404 Not Found'")
         "get_page" [("page_id", VStr "nope")] world0)
  = [{| type := "text";
        text := dumps (VDict [("error", VStr "Client error '404 Not Found'")]) None |}].
Proof. reflexivity. Qed.

Example missing_argument_payload :
  call_tool Sample.depth Sample.environ (Sample.serve VNone) "list_channels" [] world0
  = ([{| type := "text"; text := dumps (VDict [("error", VStr "'space_id'")]) None |}],
     log "Tool list_channels failed" world0).
Proof. reflexivity. Qed.

(** ** Every branch of the dispatch, in one form *)

Lemma handle_get_news_gen depth environ upstream arguments w :
  configured environ = true ->
  _handle_tool depth environ upstream "get_news" arguments w
  = ((do data <- response (upstream
                   (GET environ (news_path (dict_get arguments "channel_id" VNone))
                      (posts_params (dict_get arguments "limit" (VInt 10)))));
      do shown <- shown_posts (unwrap data) (dict_get arguments "limit" (VInt 10));
      do result <- map_res news_entry shown;
      Ok (dumps (VList result) (Some 2))),
     sent w (GET environ (news_path (dict_get arguments "channel_id" VNone))
               (posts_params (dict_get arguments "limit" (VInt 10))))).
Proof.
  intros Hc. rewrite (handle_get_news_run _ _ _ _ _ Hc). unfold news_path.
  destruct (truthy (dict_get arguments "channel_id" VNone)) eqn:Ht.
  - rewrite (get_news_result_channel _ _ _ _ Ht). cbn [fst snd]. f_equal.
    destruct (response _) as [data|e]; cbn [res_bind]; [|reflexivity].
    by destruct (shown_posts _ _).
  - rewrite (get_news_result_global _ _ _ _ Ht). cbn [fst snd]. f_equal.
    destruct (response _) as [data|e]; cbn [res_bind]; [|reflexivity].
    by destruct (shown_posts _ _).
Qed.

Lemma subscript_arguments_missing arguments k :
  dict_lookup arguments k = None ->
  subscript (VDict arguments) k = Raise (KeyError (repr_str k)).
Proof. intros H. cbn [subscript]. by rewrite H. Qed.

Lemma handle_list_channels_gen depth environ upstream arguments w :
  configured environ = true ->
  _handle_tool depth environ upstream "list_channels" arguments w
  = match dict_lookup arguments "space_id" with
    | None => (Raise (KeyError (repr_str "space_id")), w)
    | Some space_id =>
        ((do data <- response (upstream
                       (GET environ ("/api/spaces/" +:+ str space_id +:+ "/news") None));
          do channels <- _extract_channels depth (unwrap data) None;
          Ok (dumps (VList channels) (Some 2))),
         sent w (GET environ ("/api/spaces/" +:+ str space_id +:+ "/news") None))
    end.
Proof.
  intros Hc. rewrite (handle_tool_configured _ _ _ _ _ _ Hc).
  cbn [String.eqb Ascii.eqb Bool.eqb]. unfold handle_list_channels.
  destruct (dict_lookup arguments "space_id") as [space_id|] eqn:Hid.
  - rewrite (io_bind_run _ _ w (Ok space_id) w)
      by (unfold lift; by rewrite (subscript_arguments _ _ _ Hid)).
    unfold get_space_news, io_bind, io_ret, lift. rewrite get_run.
    destruct (response _) as [data|e]; cbn [res_bind]; [|reflexivity].
    by destruct (_extract_channels depth (unwrap data) None).
  - by rewrite (io_bind_run _ _ w (Raise (KeyError (repr_str "space_id"))) w)
      by (unfold lift; by rewrite (subscript_arguments_missing _ _ Hid)).
Qed.

Lemma handle_get_page_gen depth environ upstream arguments w :
  configured environ = true ->
  _handle_tool depth environ upstream "get_page" arguments w
  = match dict_lookup arguments "page_id" with
    | None => (Raise (KeyError (repr_str "page_id")), w)
    | Some page_id =>
        ((do page <- response (upstream (GET environ ("/api/pages/" +:+ str page_id) None));
          do shown <- page_entry page;
          Ok (dumps shown (Some 2))),
         sent w (GET environ ("/api/pages/" +:+ str page_id) None))
    end.
Proof.
  intros Hc. rewrite (handle_tool_configured _ _ _ _ _ _ Hc).
  cbn [String.eqb Ascii.eqb Bool.eqb]. unfold handle_get_page.
  destruct (dict_lookup arguments "page_id") as [page_id|] eqn:Hid.
  - rewrite (io_bind_run _ _ w (Ok page_id) w)
      by (unfold lift; by rewrite (subscript_arguments _ _ _ Hid)).
    unfold get_page, io_bind, io_ret, lift. rewrite get_run.
    destruct (response _) as [page|e]; cbn [res_bind]; [|reflexivity].
    by destruct (page_entry page).
  - by rewrite (io_bind_run _ _ w (Raise (KeyError (repr_str "page_id"))) w)
      by (unfold lift; by rewrite (subscript_arguments_missing _ _ Hid)).
Qed.

Lemma handle_search_gen depth environ upstream arguments w :
  configured environ = true ->
  _handle_tool depth environ upstream "search" arguments w
  = match dict_lookup arguments "query" with
    | None => (Raise (KeyError (repr_str "query")), w)
    | Some query =>
        ((do data <- response (upstream
                       (GET environ "/api/search"
                          (Some [("q", query);
                                 ("limit", dict_get arguments "limit" (VInt 10))])));
          Ok (dumps data (Some 2))),
         sent w (GET environ "/api/search"
                   (Some [("q", query); ("limit", dict_get arguments "limit" (VInt 10))])))
    end.
Proof.
  intros Hc. rewrite (handle_tool_configured _ _ _ _ _ _ Hc).
  cbn [String.eqb Ascii.eqb Bool.eqb]. unfold handle_search.
  destruct (dict_lookup arguments "query") as [query|] eqn:Hq.
  - rewrite (io_bind_run _ _ w (Ok query) w)
      by (unfold lift; by rewrite (subscript_arguments _ _ _ Hq)).
    unfold search, io_bind, io_ret, lift. rewrite get_run.
    by destruct (response _).
  - by rewrite (io_bind_run _ _ w (Raise (KeyError (repr_str "query"))) w)
      by (unfold lift; by rewrite (subscript_arguments_missing _ _ Hq)).
Qed.

Lemma grown_nothing w : grown w [] [] = w.
Proof. destruct w. unfold grown. cbn. by rewrite !app_nil_r. Qed.

Lemma grown_sent w rq : grown w [rq] [] = sent w rq.
Proof. unfold grown, sent. by rewrite app_nil_r. Qed.

Lemma news_path_api channel_id : String.prefix "/api/" (news_path channel_id) = true.
Proof. unfold news_path. by destruct (truthy channel_id). Qed.

(** What a dispatch does to the world does not depend on the world: it
    sends nothing, or one request under [/api/] whose failure is the
    outcome. *)
Lemma handle_tool_frame depth environ upstream name arguments :
  exists r rqs,
    (forall w, _handle_tool depth environ upstream name arguments w = (r, grown w rqs []))
    /\ (rqs = []
        \/ exists path params,
             rqs = [GET environ path params]
             /\ String.prefix "/api/" path = true
             /\ forall e, response (upstream (GET environ path params)) = Raise e ->
                          r = Raise e).
Proof.
  destruct (configured environ) eqn:Hc.
  2:{ exists (Raise config_error), []. split; [|by left].
      intros w. by rewrite grown_nothing, (handle_tool_unconfigured _ _ _ _ _ _ Hc). }
  destruct (String.eqb name "list_spaces") eqn:E1.
  { apply String.eqb_eq in E1 as ->. eexists _, [_]. split.
    - intros w. rewrite grown_sent. exact (handle_list_spaces_run _ _ _ _ w Hc).
    - right. exists "/api/spaces", (Some [("includeHidden", VStr "true")]).
      split; [reflexivity|]. split; [reflexivity|].
      fold (spaces_request environ). by intros e ->. }
  destruct (String.eqb name "get_news") eqn:E2.
  { apply String.eqb_eq in E2 as ->. eexists _, [_]. split.
    - intros w. rewrite grown_sent. exact (handle_get_news_gen _ _ _ _ w Hc).
    - right. eexists _, _. split; [reflexivity|]. split; [apply news_path_api|].
      by intros e ->. }
  destruct (String.eqb name "list_channels") eqn:E3.
  { apply String.eqb_eq in E3 as ->.
    destruct (dict_lookup arguments "space_id") as [space_id|] eqn:Hid.
    - eexists _, [_]. split.
      + intros w. rewrite grown_sent, (handle_list_channels_gen _ _ _ _ w Hc), Hid.
        reflexivity.
      + right. eexists _, _. split; [reflexivity|]. split; [reflexivity|].
        by intros e ->.
    - eexists _, []. split; [|by left].
      intros w. rewrite grown_nothing, (handle_list_channels_gen _ _ _ _ w Hc), Hid.
      reflexivity. }
  destruct (String.eqb name "get_page") eqn:E4.
  { apply String.eqb_eq in E4 as ->.
    destruct (dict_lookup arguments "page_id") as [page_id|] eqn:Hid.
    - eexists _, [_]. split.
      + intros w. rewrite grown_sent, (handle_get_page_gen _ _ _ _ w Hc), Hid.
        reflexivity.
      + right. eexists _, _. split; [reflexivity|]. split; [reflexivity|].
        by intros e ->.
    - eexists _, []. split; [|by left].
      intros w. rewrite grown_nothing, (handle_get_page_gen _ _ _ _ w Hc), Hid.
      reflexivity. }
  destruct (String.eqb name "search") eqn:E5.
  { apply String.eqb_eq in E5 as ->.
    destruct (dict_lookup arguments "query") as [query|] eqn:Hq.
    - eexists _, [_]. split.
      + intros w. rewrite grown_sent, (handle_search_gen _ _ _ _ w Hc), Hq.
        reflexivity.
      + right. eexists _, _. split; [reflexivity|]. split; [reflexivity|].
        by intros e ->.
    - eexists _, []. split; [|by left].
      intros w. rewrite grown_nothing, (handle_search_gen _ _ _ _ w Hc), Hq.
      reflexivity. }
  exists (Ok (dumps (unknown_tool name) None)), []. split; [|by left].
  intros w. rewrite grown_nothing, (handle_tool_configured _ _ _ _ _ _ Hc).
  by rewrite E1, E2, E3, E4, E5.
Qed.

(** ** The boundary as a whole *)

Lemma call_tool_frame depth environ upstream name arguments r rqs :
  (forall w, _handle_tool depth environ upstream name arguments w = (r, grown w rqs [])) ->
  forall w,
    call_tool depth environ upstream name arguments w
    = match r with
      | Ok result => ([{| type := "text"; text := result |}], grown w rqs [])
      | Raise exc =>
          ([{| type := "text"; text := error_payload exc |}],
           grown w rqs ["Tool " +:+ name +:+ " failed"])
      end.
Proof.
  intros Hr w. unfold call_tool. rewrite Hr. destruct r; [reflexivity|].
  unfold log, grown. cbn [requests logged]. by rewrite app_nil_r.
Qed.

(** X1.  A tool call is stateless: its payload and what it adds to the
    world are the same in every world; it adds at most one request and at
    most one log line, and what was there before stays. *)
Theorem call_tool_stateless depth environ upstream name arguments :
  exists payload rqs lines,
    length rqs <= 1 /\ length lines <= 1
    /\ forall w,
         call_tool depth environ upstream name arguments w = ([payload], grown w rqs lines).
Proof.
  destruct (handle_tool_frame depth environ upstream name arguments)
    as (r & rqs & Hr & Hrqs).
  assert (Hlen : length rqs <= 1)
    by (destruct Hrqs as [->|(path & params & -> & _)]; cbn; lia).
  pose proof (call_tool_frame _ _ _ _ _ _ _ Hr) as Hcall.
  destruct r as [result|exc].
  - exists {| type := "text"; text := result |}, rqs, [].
    split; [exact Hlen|]. split; [cbn; lia | exact Hcall].
  - exists {| type := "text"; text := error_payload exc |}, rqs,
      ["Tool " +:+ name +:+ " failed"].
    split; [exact Hlen|]. split; [cbn; lia | exact Hcall].
Qed.

Lemma GET_authorized environ path params :
  String.prefix "/api/" path = true -> authorized environ (GET environ path params).
Proof.
  intros Hp. split; [reflexivity|]. split; [reflexivity|]. by exists path.
Qed.

(** X2.  Every request a tool call sends carries the Basic authorization
    header with the configured key and the client's timeout, and its URL
    is the configured base URL without trailing slashes followed by a path
    under /api/. *)
Theorem requests_authorized depth environ upstream name arguments w rq :
  In rq (requests (snd (call_tool depth environ upstream name arguments w))) ->
  In rq (requests w) \/ authorized environ rq.
Proof.
  destruct (handle_tool_frame depth environ upstream name arguments)
    as (r & rqs & Hr & Hrqs).
  rewrite (call_tool_frame _ _ _ _ _ _ _ Hr).
  assert (Hin : In rq (requests w ++ rqs) -> In rq (requests w) \/ authorized environ rq).
  { intros [Hold|Hnew]%in_app_or; [by left|]. right.
    destruct Hrqs as [->|(path & params & -> & Hp & _)]; [destruct Hnew|].
    destruct Hnew as [<-|[]]. by apply GET_authorized. }
  by destruct r.
Qed.

Lemma requests_authorized_witness :
  In (spaces_request Sample.environ)
    (requests (snd (call_tool Sample.depth Sample.environ (Sample.serve (VList [])) "list_spaces" []
                      world0)))
  /\ (In (spaces_request Sample.environ) (requests world0)
      \/ authorized Sample.environ (spaces_request Sample.environ)).
Proof.
  assert (H : In (spaces_request Sample.environ)
                (requests (snd (call_tool Sample.depth Sample.environ (Sample.serve (VList []))
                                  "list_spaces" [] world0))))
    by (left; reflexivity).
  split; [exact H|].
  exact (requests_authorized Sample.depth Sample.environ (Sample.serve (VList [])) "list_spaces" []
           world0 (spaces_request Sample.environ) H).
Defined.

(** X3.  Nothing is retried: when upstream fails every request with the
    same exception, a call sends at most one request, and if it sent one
    its payload reports that exception. *)
Theorem failure_is_final depth environ upstream name arguments w exc :
  (forall rq, response (upstream rq) = Raise exc) ->
  exists rqs,
    length rqs <= 1
    /\ requests (snd (call_tool depth environ upstream name arguments w)) = requests w ++ rqs
    /\ (rqs <> [] ->
        fst (call_tool depth environ upstream name arguments w)
        = [{| type := "text";
              text := dumps (VDict [("error", VStr (str_exc exc))]) None |}]).
Proof.
  intros Hfail.
  destruct (handle_tool_frame depth environ upstream name arguments)
    as (r & rqs & Hr & Hrqs).
  exists rqs. rewrite (call_tool_frame _ _ _ _ _ _ _ Hr).
  destruct Hrqs as [->|(path & params & -> & _ & Hraise)].
  - split; [cbn; lia|]. split; [by destruct r | congruence].
  - rewrite (Hraise exc (Hfail _)). split; [cbn; lia|]. by split.
Qed.

Lemma failure_is_final_witness :
  (forall rq, response ((fun _ : request => ReplyFailed "timed out") rq)
              = Raise (TransportError "timed out"))
  /\ exists rqs,
       length rqs <= 1
       /\ requests (snd (call_tool Sample.depth Sample.environ (fun _ : request => ReplyFailed "timed out")
                           "get_news" [] world0))
          = requests world0 ++ rqs.
Proof.
  assert (H : forall rq : request,
              response ((fun _ : request => ReplyFailed "timed out") rq)
              = Raise (TransportError "timed out"))
    by (intros rq; reflexivity).
  split; [exact H|].
  destruct (failure_is_final Sample.depth Sample.environ (fun _ : request => ReplyFailed "timed out") "get_news"
              [] world0 (TransportError "timed out") H) as (rqs & Hlen & Hreq & _).
  exists rqs. split; [exact Hlen | exact Hreq].
Defined.

(** X4.  The catalog and the dispatch agree on required arguments: for
    every tool of the catalog and every name its schema lists as required,
    a call without that argument answers with the missing-key error for
    it, and sends nothing. *)
Theorem required_argument_missing depth environ upstream t k arguments w :
  configured environ = true ->
  In t TOOLS ->
  In (VStr k) (required t) ->
  dict_lookup arguments k = None ->
  call_tool depth environ upstream (Server.name t) arguments w
  = ([{| type := "text";
         text := dumps (VDict [("error", VStr (sq +:+ k +:+ sq))]) None |}],
     log ("Tool " +:+ Server.name t +:+ " failed") w).
Proof.
  intros Hc Ht Hk Hmiss. unfold call_tool.
  cbn in Ht. destruct Ht as [<-|[<-|[<-|[<-|[<-|[]]]]]]; cbn in Hk;
    try (destruct Hk; fail); destruct Hk as [[= <-]|[]]; cbn [Server.name].
  - by rewrite (handle_list_channels_gen _ _ _ _ w Hc), Hmiss.
  - by rewrite (handle_get_page_gen _ _ _ _ w Hc), Hmiss.
  - by rewrite (handle_search_gen _ _ _ _ w Hc), Hmiss.
Qed.

Lemma required_argument_missing_witness :
  configured Sample.environ = true
  /\ In Sample.list_channels_tool TOOLS
  /\ In (VStr "space_id") (required Sample.list_channels_tool)
  /\ call_tool Sample.depth Sample.environ (Sample.serve VNone) "list_channels"
       [("limit", VInt 3)] world0
     = ([{| type := "text";
            text := dumps (VDict [("error", VStr (sq +:+ "space_id" +:+ sq))]) None |}],
        log "Tool list_channels failed" world0).
Proof.
  assert (Ht : In Sample.list_channels_tool TOOLS)
    by (right; right; left; reflexivity).
  assert (Hk : In (VStr "space_id") (required Sample.list_channels_tool))
    by (left; reflexivity).
  split; [reflexivity|]. split; [exact Ht|]. split; [exact Hk|].
  exact (required_argument_missing Sample.depth Sample.environ (Sample.serve VNone)
           Sample.list_channels_tool "space_id" [("limit", VInt 3)] world0
           eq_refl Ht Hk eq_refl).
Defined.

(** X5.  [search] needs a query, asks /api/search for it with the given
    limit (10 by default), and answers with the upstream document as it
    came, serialized with two spaces of indentation: an envelope is not
    unwrapped and nothing is reshaped. *)
Theorem search_passes_through depth environ upstream arguments query data w :
  configured environ = true ->
  dict_lookup arguments "query" = Some query ->
  upstream (GET environ "/api/search"
              (Some [("q", query); ("limit", dict_get arguments "limit" (VInt 10))]))
  = ReplyJson data ->
  call_tool depth environ upstream "search" arguments w
  = ([{| type := "text"; text := dumps data (Some 2) |}],
     sent w (GET environ "/api/search"
               (Some [("q", query); ("limit", dict_get arguments "limit" (VInt 10))]))).
Proof.
  intros Hc Hq Hup. unfold call_tool.
  by rewrite (handle_search_gen _ _ _ _ w Hc), Hq, Hup.
Qed.

Lemma search_passes_through_witness :
  configured Sample.environ = true
  /\ fst (call_tool Sample.depth Sample.environ
            (Sample.serve (VDict [("data", VList [VStr "hit"])])) "search"
            [("query", VStr "canteen")] world0)
     = [{| type := "text"; text := dumps (VDict [("data", VList [VStr "hit"])]) (Some 2) |}].
Proof.
  split; [reflexivity|].
  exact (f_equal fst
           (search_passes_through Sample.depth Sample.environ
              (Sample.serve (VDict [("data", VList [VStr "hit"])]))
              [("query", VStr "canteen")] (VStr "canteen")
              (VDict [("data", VList [VStr "hit"])]) world0 eq_refl eq_refl eq_refl)).
Defined.

(** X6.  [get_news] always sends exactly one request when the adapter is
    configured, and the truth value of [channel_id] picks the endpoint:
    any value that counts as false (absent, null, false, 0, empty text,
    list or object) asks the global feed, any other value is formatted
    into the channel path. *)
Theorem get_news_endpoint depth environ upstream arguments w :
  configured environ = true ->
  snd (call_tool depth environ upstream "get_news" arguments w)
  = grown w [GET environ
               (if truthy (dict_get arguments "channel_id" VNone)
                then "/api/channels/" +:+ str (dict_get arguments "channel_id" VNone)
                     +:+ "/posts"
                else "/api/posts")
               (Some [("limit", dict_get arguments "limit" (VInt 10));
                      ("offset", VInt 0)])]
       (if is_ok (fst (_handle_tool depth environ upstream "get_news" arguments w))
        then [] else ["Tool get_news failed"]).
Proof.
  intros Hc. unfold call_tool.
  rewrite (handle_get_news_gen _ _ _ _ w Hc). fold (news_path (dict_get arguments "channel_id" VNone)).
  fold (posts_params (dict_get arguments "limit" (VInt 10))). cbn [fst].
  match goal with |- context [is_ok ?r] => destruct r as [result|exc] end;
    cbn [snd is_ok]; [by rewrite <- grown_sent|].
  unfold log, grown, sent. cbn [requests logged]. reflexivity.
Qed.

Lemma get_news_endpoint_witness :
  configured Sample.environ = true
  /\ requests (snd (call_tool Sample.depth Sample.environ (Sample.serve (VList [])) "get_news"
                      [("channel_id", VInt 0)] world0))
     = [GET Sample.environ "/api/posts" (Some [("limit", VInt 10); ("offset", VInt 0)])]
  /\ requests (snd (call_tool Sample.depth Sample.environ (Sample.serve (VList [])) "get_news"
                      [("channel_id", VInt 7)] world0))
     = [GET Sample.environ "/api/channels/7/posts"
          (Some [("limit", VInt 10); ("offset", VInt 0)])].
Proof.
  split; [reflexivity|]. split.
  - exact (f_equal requests
             (get_news_endpoint Sample.depth Sample.environ (Sample.serve (VList []))
                [("channel_id", VInt 0)] world0 eq_refl)).
  - exact (f_equal requests
             (get_news_endpoint Sample.depth Sample.environ (Sample.serve (VList []))
                [("channel_id", VInt 7)] world0 eq_refl)).
Defined.

(** ** More on the walk of the channel tree *)

Lemma extract_channels_depth_none d items :
  extract_channels_depth d items None = extract_channels_depth d items (Some []).
Proof. by destruct d. Qed.

Lemma for_each_accumulates {A B} (f : A -> list B -> res (list B)) xs :
  (forall x, In x xs -> forall acc, f x acc = (do r <- f x []; Ok (acc ++ r))) ->
  forall acc, for_each xs acc f = (do r <- for_each xs [] f; Ok (acc ++ r)).
Proof.
  induction xs as [|x xs IH]; intros Hf acc; cbn [for_each res_bind].
  - by rewrite app_nil_r.
  - assert (IH' := IH (fun y Hy => Hf y (or_intror Hy))).
    rewrite (Hf x (or_introl eq_refl) acc).
    destruct (f x []) as [r|e]; cbn [res_bind]; [|reflexivity].
    rewrite (IH' (acc ++ r)), (IH' r).
    destruct (for_each xs [] f) as [r'|e]; cbn [res_bind]; [|reflexivity].
    by rewrite app_assoc.
Qed.

Lemma extract_channels_item_accumulates rec item acc :
  (forall c a, rec c (Some a) = (do r <- rec c (Some []); Ok (a ++ r))) ->
  extract_channels_item rec item acc
  = (do r <- extract_channels_item rec item []; Ok (acc ++ r)).
Proof.
  intros Hrec. unfold extract_channels_item.
  destruct (get item "type" VNone) as [ty|e]; cbn [res_bind]; [|reflexivity].
  assert (Hown : exists own : res (list pyval),
    (if eq_str ty "news"
     then do entry <- channel_entry item; Ok (acc ++ [entry]) else Ok acc)
    = (do o <- own; Ok (acc ++ o))
    /\ (if eq_str ty "news"
        then do entry <- channel_entry item; Ok ([] ++ [entry]) else Ok [])
       = own).
  { destruct (eq_str ty "news").
    - exists (do entry <- channel_entry item; Ok [entry]).
      split; by destruct (channel_entry item).
    - exists (Ok []). split; [cbn [res_bind]; by rewrite app_nil_r | reflexivity]. }
  destruct Hown as (own & -> & ->).
  destruct own as [o|e]; cbn [res_bind]; [|reflexivity].
  destruct (get item "children" (VList [])) as [children|e]; cbn [res_bind];
    [|reflexivity].
  destruct (truthy children); [|reflexivity].
  rewrite (Hrec children (acc ++ o)), (Hrec children o).
  destruct (rec children (Some [])) as [r|e]; cbn [res_bind]; [|reflexivity].
  by rewrite app_assoc.
Qed.

Lemma extract_channels_depth_accumulates d items acc :
  extract_channels_depth d items (Some acc)
  = (do r <- extract_channels_depth d items (Some []); Ok (acc ++ r)).
Proof.
  revert items acc. induction d as [|d IH]; intros items acc; [reflexivity|].
  cbn [extract_channels_depth default from_option id].
  destruct (iterate items) as [xs|e]; cbn [res_bind]; [|reflexivity].
  apply for_each_accumulates. intros item _ acc'.
  apply extract_channels_item_accumulates. exact IH.
Qed.

(** X7.  The walk only appends: called with a list of earlier results it
    gives that list followed by what it gives when called without one, and
    it fails with the same exception. *)
Theorem extract_channels_appends depth items acc :
  _extract_channels depth items (Some acc)
  = (do r <- _extract_channels depth items None; Ok (acc ++ r)).
Proof.
  unfold _extract_channels.
  by rewrite extract_channels_depth_none, extract_channels_depth_accumulates.
Qed.

Lemma map_res_app {A B} (f : A -> res B) xs ys :
  map_res f (xs ++ ys)
  = (do a <- map_res f xs; do b <- map_res f ys; Ok (a ++ b)).
Proof.
  induction xs as [|x xs IH]; cbn [app map_res res_bind].
  - by destruct (map_res f ys).
  - destruct (f x) as [y|e]; cbn [res_bind]; [|reflexivity].
    rewrite IH. destruct (map_res f xs) as [a|e]; cbn [res_bind]; [|reflexivity].
    by destruct (map_res f ys).
Qed.

(** A loop over text never gets past its first step. *)
Lemma walk_of_text rec (xs : list pyval) acc :
  xs <> [] -> (forall x, In x xs -> exists s, x = VStr s) ->
  for_each xs acc (extract_channels_item rec) = Raise (no_attribute (VStr "") "get").
Proof.
  destruct xs as [|x xs]; [congruence|]. intros _ Hstr.
  destruct (Hstr x (or_introl eq_refl)) as [s ->]. reflexivity.
Qed.

(** A successful recursive call was made on a list. *)
Lemma truthy_children_list d children acc r :
  truthy children = true ->
  extract_channels_depth d children (Some acc) = Ok r ->
  exists cs, children = VList cs.
Proof.
  intros Ht. destruct d as [|d]; [discriminate|]. cbn [extract_channels_depth].
  destruct children as [| | |s|cs|kvs]; try discriminate.
  - cbn [iterate res_bind default from_option id].
    rewrite (walk_of_text _ (chars s) acc); [discriminate| |].
    + destruct s; [discriminate|]. cbn. congruence.
    + clear. induction s as [|c s IH]; cbn; [tauto|].
      intros x [<-|Hx]; [by eexists | by apply IH].
  - by exists cs.
  - cbn [iterate res_bind default from_option id].
    rewrite (walk_of_text _ (map (fun kv => VStr (fst kv)) kvs) acc); [discriminate| |].
    + destruct kvs; [discriminate|]. cbn. congruence.
    + intros x (kv & <- & _)%in_map_iff. by eexists.
Qed.

Lemma extract_channels_depth_sound d items acc r :
  extract_channels_depth d (VList items) (Some acc) = Ok r ->
  exists es,
    map_res channel_entry (List.filter is_news (forest_preorder items)) = Ok es
    /\ r = acc ++ es.
Proof.
  revert items acc r. induction d as [|d IH]; intros items acc r; [discriminate|].
  cbn [extract_channels_depth iterate res_bind default from_option id].
  revert acc r. induction items as [|item rest IHrest]; intros acc r; cbn [for_each].
  - intros [= <-]. exists []. by rewrite app_nil_r.
  - destruct (extract_channels_item (extract_channels_depth d) item acc)
      as [acc1|e] eqn:Hitem; cbn [res_bind]; [|discriminate].
    intros Hrest. destruct (IHrest _ _ Hrest) as (es2 & Hes2 & ->).
    assert (Hthis : exists es1,
      map_res channel_entry (List.filter is_news (nodes_preorder item)) = Ok es1
      /\ acc1 = acc ++ es1).
    { clear Hrest Hes2 IHrest. unfold extract_channels_item in Hitem.
      destruct item as [| | | | |kvs]; try discriminate.
      cbn [get res_bind] in Hitem. rewrite nodes_preorder_dict. cbn [List.filter].
      change (eq_str (dict_get kvs "type" VNone) "news") with (is_news (VDict kvs))
        in Hitem.
      assert (Hown : exists own,
        (if is_news (VDict kvs)
         then do entry <- channel_entry (VDict kvs); Ok (acc ++ [entry])
         else Ok acc) = Ok (acc ++ own)
        /\ forall below,
             map_res channel_entry
               (if is_news (VDict kvs) then VDict kvs :: below else below)
             = (do bs <- map_res channel_entry below; Ok (own ++ bs))).
      { destruct (is_news (VDict kvs)).
        - destruct (channel_entry (VDict kvs)) as [entry|e] eqn:He; [|discriminate].
          exists [entry]. split; [reflexivity|]. intros below. cbn [map_res].
          rewrite He. cbn [res_bind]. by destruct (map_res channel_entry below).
        - exists []. split; [by rewrite app_nil_r|]. intros below.
          by destruct (map_res channel_entry below). }
      destruct Hown as (own & Hown & Hsplit). rewrite Hown in Hitem.
      cbn [res_bind] in Hitem. rewrite Hsplit. unfold dict_get in Hitem.
      destruct (dict_lookup kvs "children") as [c|]; cbn [default from_option id] in Hitem.
      - destruct (truthy c) eqn:Ht.
        + destruct (truthy_children_list _ _ _ _ Ht Hitem) as [cs ->].
          destruct (IH _ _ _ Hitem) as (bs & Hbs & ->).
          exists (own ++ bs). rewrite Hbs. cbn [res_bind].
          by rewrite app_assoc.
        + injection Hitem as <-. exists own.
          assert (match c with VList cs => forest_preorder cs | _ => [] end = []) as ->
            by (by destruct c as [| | | |[|]|]).
          cbn. by rewrite !app_nil_r.
      - cbn in Hitem. injection Hitem as <-. exists own. cbn. by rewrite !app_nil_r. }
    destruct Hthis as (es1 & Hes1 & ->).
    exists (es1 ++ es2). rewrite forest_preorder_cons, List.filter_app, map_res_app.
    rewrite Hes1, Hes2. cbn [res_bind]. by rewrite app_assoc.
Qed.

(** X8.  Whenever the walk of a list succeeds, on any input, its result is
    the entries of exactly the nodes of type news, in depth-first order
    with a node before what is below it. *)
Theorem extract_channels_sound depth items r :
  _extract_channels depth (VList items) None = Ok r ->
  map_res channel_entry (List.filter is_news (forest_preorder items)) = Ok r.
Proof.
  unfold _extract_channels. rewrite extract_channels_depth_none. intros H.
  by destruct (extract_channels_depth_sound _ _ _ _ H) as (es & Hes & ->).
Qed.

Lemma extract_channels_sound_witness :
  _extract_channels Sample.depth (VList Sample.menu) None
  = Ok [VDict [("name", VStr "A"); ("installation_id", VStr "a")];
        VDict [("name", VStr "B"); ("installation_id", VStr "b")];
        VDict [("name", VStr ""); ("installation_id", VStr "")]]
  /\ map_res channel_entry (List.filter is_news (forest_preorder Sample.menu))
     = Ok [VDict [("name", VStr "A"); ("installation_id", VStr "a")];
           VDict [("name", VStr "B"); ("installation_id", VStr "b")];
           VDict [("name", VStr ""); ("installation_id", VStr "")]].
Proof.
  split; [reflexivity|].
  exact (extract_channels_sound Sample.depth Sample.menu _ eq_refl).
Defined.

(** ** More on get_news *)

(** The locale and the content object picked from a well-formed content
    mapping. *)
Lemma pick_locale_ok kvs :
  contents_ok kvs = true ->
  exists locale,
    pick_locale (dict_get kvs "contents" (VDict [])) = Ok (locale, VDict (localized kvs))
    /\ or_else locale (VStr "") = VStr (locale_of kvs).
Proof.
  unfold contents_ok, localized, locale_of, dict_get.
  destruct (dict_lookup kvs "contents") as [[| | | | |[|[locale c] more]]|];
    cbn [default from_option id]; try discriminate.
  - intros _. by exists VNone.
  - intros Hc. cbn [first_key].
    destruct (String.eqb locale "") eqn:El.
    + exists (VStr locale). unfold pick_locale, first_or_none.
      cbn [iterate res_bind map hd fst]. rewrite truthy_str, El. cbn [negb res_bind].
      unfold or_else. rewrite truthy_str, El. cbn [negb].
      apply String.eqb_eq in El as ->. split; [by destruct c | reflexivity].
    + destruct c as [| | | | |ckvs]; try discriminate.
      exists (VStr locale). apply String.eqb_neq in El.
      split; [by apply pick_locale_first | by apply or_else_locale].
  - intros _. by exists VNone.
Qed.

Lemma news_entry_ok p : post_ok p = true -> news_entry p = Ok (news_view p).
Proof.
  destruct p as [| | | | |kvs]; try discriminate.
  unfold post_ok. intros [Hc Ht]%andb_true_iff.
  destruct (pick_locale_ok kvs Hc) as (locale & Hpick & Hlocale).
  unfold news_entry, news_view. cbn [get res_bind]. rewrite Hpick.
  cbn [res_bind get]. rewrite Hlocale.
  assert (Hteaser : exists s, dict_get (localized kvs) "teaser" (VStr "") = VStr s).
  { unfold text_or_absent in Ht. unfold dict_get.
    destruct (dict_lookup (localized kvs) "teaser") as [[]|]; try discriminate;
      by eexists. }
  destruct Hteaser as [s Hs]. by rewrite Hs.
Qed.

(** X9.  On posts that are well formed, [get_news] with a limit that is
    an integer and not negative never fails: it shows the first limit
    posts, each reshaped, in the order upstream gave them, so the number of
    entries is the smaller of the limit and the number of posts. *)
Theorem get_news_well_formed depth environ upstream arguments body posts n w :
  configured environ = true ->
  upstream (GET environ (news_path (dict_get arguments "channel_id" VNone))
              (posts_params (dict_get arguments "limit" (VInt 10))))
  = ReplyJson body ->
  unwrap body = VList posts ->
  dict_get arguments "limit" (VInt 10) = VInt n -> (0 <= n)%Z ->
  forallb post_ok posts = true ->
  fst (call_tool depth environ upstream "get_news" arguments w)
  = [{| type := "text";
        text := dumps (VList (map news_view (take (Z.to_nat n) posts))) (Some 2) |}]
  /\ length (map news_view (take (Z.to_nat n) posts))
     = Nat.min (Z.to_nat n) (length posts).
Proof.
  intros Hc Hup Hbody Hlimit Hn Hok. split; [|by rewrite length_map, length_take].
  unfold call_tool. rewrite (handle_get_news_gen _ _ _ _ w Hc), Hup.
  cbn [response res_bind]. rewrite Hbody, Hlimit.
  cbn [shown_posts list_slice slice_bound res_bind].
  rewrite (slice_upto_nonneg _ _ Hn).
  rewrite (map_res_total news_entry news_view); [reflexivity|].
  intros p Hp. apply news_entry_ok.
  rewrite forallb_forall in Hok. apply Hok.
  apply list_elem_of_In. apply (subseteq_take (Z.to_nat n) posts).
  by apply list_elem_of_In.
Qed.

Lemma get_news_well_formed_witness :
  configured Sample.environ = true
  /\ forallb post_ok [Sample.post_with_teaser "one"; VDict [("id", VStr "p2")];
                      Sample.post_with_teaser "three"] = true
  /\ fst (call_tool Sample.depth Sample.environ
            (Sample.serve (VList [Sample.post_with_teaser "one"; VDict [("id", VStr "p2")];
                                  Sample.post_with_teaser "three"]))
            "get_news" [("limit", VInt 2)] world0)
     = [{| type := "text";
           text := dumps (VList [news_view (Sample.post_with_teaser "one");
                                 news_view (VDict [("id", VStr "p2")])]) (Some 2) |}].
Proof.
  split; [reflexivity|]. split; [reflexivity|].
  exact (proj1 (get_news_well_formed Sample.depth Sample.environ
                  (Sample.serve (VList [Sample.post_with_teaser "one";
                                        VDict [("id", VStr "p2")];
                                        Sample.post_with_teaser "three"]))
                  [("limit", VInt 2)] _ _ 2 world0
                  eq_refl eq_refl eq_refl eq_refl ltac:(discriminate) eq_refl)).
Defined.

(** X10.  The limit of [get_news] is the bound of a slice.  On an upstream
    list: an explicit null shows every post; a negative integer drops that
    many posts from the end; true and false count as 1 and 0; text, a list
    or an object as limit makes the call answer with the slice-index type
    error, after the request was sent. *)
Theorem get_news_limit_edges depth environ upstream arguments body posts w :
  configured environ = true ->
  upstream (GET environ (news_path (dict_get arguments "channel_id" VNone))
              (posts_params (dict_get arguments "limit" (VInt 10))))
  = ReplyJson body ->
  unwrap body = VList posts ->
  (dict_get arguments "limit" (VInt 10) = VNone ->
   fst (_handle_tool depth environ upstream "get_news" arguments w)
   = (do result <- map_res news_entry posts; Ok (dumps (VList result) (Some 2))))
  /\ (forall n,
        dict_get arguments "limit" (VInt 10) = VInt n -> (n < 0)%Z ->
        fst (_handle_tool depth environ upstream "get_news" arguments w)
        = (do result <- map_res news_entry
                          (take (length posts - Z.to_nat (- n)) posts);
           Ok (dumps (VList result) (Some 2))))
  /\ (forall b,
        dict_get arguments "limit" (VInt 10) = VBool b ->
        fst (_handle_tool depth environ upstream "get_news" arguments w)
        = (do result <- map_res news_entry (take (if b then 1 else 0) posts);
           Ok (dumps (VList result) (Some 2))))
  /\ (match dict_get arguments "limit" (VInt 10) with
      | VStr _ | VList _ | VDict _ => True
      | _ => False
      end ->
      call_tool depth environ upstream "get_news" arguments w
      = ([{| type := "text";
             text := dumps (VDict [("error",
                                    VStr "slice indices must be integers or None or have an __index__ method")])
                       None |}],
         log "Tool get_news failed"
           (sent w (GET environ (news_path (dict_get arguments "channel_id" VNone))
                      (posts_params (dict_get arguments "limit" (VInt 10))))))).
Proof.
  intros Hc Hup Hbody. unfold call_tool.
  rewrite (handle_get_news_gen _ _ _ _ w Hc), Hup.
  cbn [response res_bind fst]. rewrite Hbody. cbn [shown_posts].
  split; [|split; [|split]].
  - by intros ->.
  - intros n -> Hn. cbn [list_slice slice_bound res_bind]. unfold slice_upto.
    apply Z.ltb_lt in Hn. by rewrite Hn.
  - intros b ->. cbn [list_slice slice_bound res_bind]. by destruct b.
  - by destruct (dict_get arguments "limit" (VInt 10)).
Qed.

Lemma get_news_limit_edges_witness :
  configured Sample.environ = true
  /\ fst (_handle_tool Sample.depth Sample.environ
            (Sample.serve (VList [Sample.post_with_teaser "one";
                                  Sample.post_with_teaser "two"]))
            "get_news" [("limit", VNone)] world0)
     = (do result <- map_res news_entry [Sample.post_with_teaser "one";
                                         Sample.post_with_teaser "two"];
        Ok (dumps (VList result) (Some 2))).
Proof.
  split; [reflexivity|].
  exact (proj1 (get_news_limit_edges Sample.depth Sample.environ
                  (Sample.serve (VList [Sample.post_with_teaser "one";
                                        Sample.post_with_teaser "two"]))
                  [("limit", VNone)] _ _ world0 eq_refl eq_refl eq_refl)
           eq_refl).
Defined.

(** ** Edge cases of the reshaping *)

(** X11.  A post, page or channel node without a content mapping, or with
    an empty one, is shown with empty title, teaser, content and locale;
    its own fields are kept, and a channel takes its top-level title. *)
Theorem entries_without_contents kvs :
  dict_lookup kvs "contents" = None \/ dict_lookup kvs "contents" = Some (VDict []) ->
  news_entry (VDict kvs)
  = Ok (VDict [("id", dict_get kvs "id" (VStr "")); ("title", VStr "");
               ("teaser", VStr ""); ("published", dict_get kvs "publishedAt" (VStr ""));
               ("locale", VStr "")])
  /\ page_entry (VDict kvs)
     = Ok (VDict [("id", dict_get kvs "id" (VStr "")); ("title", VStr "");
                  ("content", VStr ""); ("locale", VStr "");
                  ("updated", dict_get kvs "updatedAt" (VStr ""))])
  /\ channel_entry (VDict kvs)
     = Ok (VDict [("name", dict_get kvs "title" (VStr ""));
                  ("installation_id",
                   dict_get kvs "installationID" (dict_get kvs "id" (VStr "")))]).
Proof.
  intros H.
  assert (Hc : dict_get kvs "contents" (VDict []) = VDict [])
    by (unfold dict_get; by destruct H as [-> | ->]).
  unfold news_entry, page_entry, channel_entry. cbn [get res_bind]. by rewrite Hc.
Qed.

Lemma entries_without_contents_witness :
  (dict_lookup [("id", VStr "n1"); ("title", VStr "Board")] "contents" = None
   \/ dict_lookup [("id", VStr "n1"); ("title", VStr "Board")] "contents"
      = Some (VDict []))
  /\ channel_entry (VDict [("id", VStr "n1"); ("title", VStr "Board")])
     = Ok (VDict [("name", VStr "Board"); ("installation_id", VStr "n1")]).
Proof.
  assert (H : dict_lookup [("id", VStr "n1"); ("title", VStr "Board")] "contents" = None
              \/ dict_lookup [("id", VStr "n1"); ("title", VStr "Board")] "contents"
                 = Some (VDict []))
    by (left; reflexivity).
  split; [exact H|].
  exact (proj2 (proj2 (entries_without_contents
                         [("id", VStr "n1"); ("title", VStr "Board")] H))).
Defined.

(** X12.  An upstream answer to [list_spaces] that is an object without a
    data key is walked as the list of its keys: the empty object gives the
    empty list, any other gives the error of indexing text with id. *)
Theorem list_spaces_object_answer depth environ upstream arguments kvs w :
  configured environ = true ->
  upstream (spaces_request environ) = ReplyJson (VDict kvs) ->
  dict_lookup kvs "data" = None ->
  fst (call_tool depth environ upstream "list_spaces" arguments w)
  = [{| type := "text";
        text := match kvs with
                | [] => "[]"
                | _ => dumps (VDict [("error",
                                      VStr ("string indices must be integers, not "
                                            +:+ sq +:+ "str" +:+ sq))]) None
                end |}].
Proof.
  intros Hc Hup Hdata. unfold call_tool.
  rewrite (handle_list_spaces_run _ _ _ _ w Hc), Hup.
  cbn [response res_bind unwrap]. unfold dict_get. rewrite Hdata.
  cbn [default from_option id iterate res_bind].
  by destruct kvs as [|[k v] more].
Qed.

Lemma list_spaces_object_answer_witness :
  configured Sample.environ = true
  /\ fst (call_tool Sample.depth Sample.environ (Sample.serve (VDict [("spaces", VList [])]))
            "list_spaces" [] world0)
     = [{| type := "text";
           text := dumps (VDict [("error",
                                  VStr ("string indices must be integers, not "
                                        +:+ sq +:+ "str" +:+ sq))]) None |}].
Proof.
  split; [reflexivity|].
  exact (list_spaces_object_answer Sample.depth Sample.environ
           (Sample.serve (VDict [("spaces", VList [])])) [] [("spaces", VList [])]
           world0 eq_refl eq_refl eq_refl).
Defined.

(** ** get_page on well-formed pages *)

Lemma page_entry_ok page : page_ok page = true -> page_entry page = Ok (page_view page).
Proof.
  destruct page as [| | | | |kvs]; try discriminate.
  unfold page_ok. intros [Hc Ht]%andb_true_iff.
  destruct (pick_locale_ok kvs Hc) as (locale & Hpick & Hlocale).
  unfold page_entry, page_view. cbn [get res_bind]. rewrite Hpick.
  cbn [res_bind get]. rewrite Hlocale.
  assert (Hcontent : exists s, dict_get (localized kvs) "content" (VStr "") = VStr s).
  { unfold text_or_absent in Ht. unfold dict_get.
    destruct (dict_lookup (localized kvs) "content") as [[]|]; try discriminate;
      by eexists. }
  destruct Hcontent as [s Hs]. by rewrite Hs.
Qed.

(** X13.  [get_page] on a well-formed page never fails: it sends one
    request for the page and answers with its id, the title and the first
    5000 characters of the content of its first locale, that locale, and
    its update time, each empty when the page lacks it. *)
Theorem get_page_well_formed depth environ upstream arguments page_id page w :
  configured environ = true ->
  dict_lookup arguments "page_id" = Some page_id ->
  upstream (GET environ ("/api/pages/" +:+ str page_id) None) = ReplyJson page ->
  page_ok page = true ->
  call_tool depth environ upstream "get_page" arguments w
  = ([{| type := "text"; text := dumps (page_view page) (Some 2) |}],
     sent w (GET environ ("/api/pages/" +:+ str page_id) None)).
Proof.
  intros Hc Hid Hup Hok. unfold call_tool.
  rewrite (handle_get_page_gen _ _ _ _ w Hc), Hid, Hup. cbn [response res_bind].
  by rewrite (page_entry_ok _ Hok).
Qed.

Lemma get_page_well_formed_witness :
  configured Sample.environ = true
  /\ page_ok (VDict [("id", VStr "9")]) = true
  /\ call_tool Sample.depth Sample.environ (Sample.serve (VDict [("id", VStr "9")])) "get_page"
       [("page_id", VInt 9)] world0
     = ([{| type := "text";
            text := dumps (VDict [("id", VStr "9"); ("title", VStr "");
                                  ("content", VStr ""); ("locale", VStr "");
                                  ("updated", VStr "")]) (Some 2) |}],
        sent world0 (GET Sample.environ "/api/pages/9" None)).
Proof.
  split; [reflexivity|]. split; [reflexivity|].
  exact (get_page_well_formed Sample.depth Sample.environ (Sample.serve (VDict [("id", VStr "9")]))
           [("page_id", VInt 9)] (VInt 9) (VDict [("id", VStr "9")]) world0
           eq_refl eq_refl eq_refl eq_refl).
Defined.

(** ** The client *)

(** X14.  The client keeps the base URL without its trailing slashes, and
    only those are removed: the stored URL does not end in a slash, and
    the given URL is the stored one followed by slashes. *)
Theorem base_url_stripped base_url api_key :
  ends_with_slash (_base_url (__init__ base_url api_key)) = false
  /\ exists n, base_url = _base_url (__init__ base_url api_key) +:+ slashes n.
Proof.
  cbn [__init__ _base_url].
  induction base_url as [|c s [IHend [n IHn]]]; [split; [reflexivity | by exists 0]|].
  cbn [rstrip_slash].
  destruct (rstrip_slash s) as [|d kept] eqn:Hr.
  - destruct (Ascii.eqb c "/") eqn:Ec.
    + split; [reflexivity|]. apply Ascii.eqb_eq in Ec as ->.
      exists (S n). cbn. by rewrite IHn at 1.
    + split; [cbn; exact Ec|]. exists n. cbn. by rewrite IHn at 1.
  - split; [exact IHend|]. exists n. cbn. by rewrite IHn at 1.
Qed.

(** X15.  [download_media] sends one request, for the given path when it
    starts with /api/ and for /api/ followed by the given path otherwise,
    so the path it asks for always starts with /api/; the answer is the
    body as bytes, or the exception of the failed request. *)
Theorem download_media_path upstream_raw self media_path w :
  exists path,
    download_media upstream_raw self media_path w
    = (raw_response (upstream_raw (raw_request self path)), sent w (raw_request self path))
    /\ String.prefix "/api/" path = true
    /\ (String.prefix "/api/" media_path = true -> path = media_path)
    /\ (String.prefix "/api/" media_path = false -> path = "/api/" +:+ media_path).
Proof.
  unfold download_media.
  destruct (String.prefix "/api/" media_path) eqn:Hp.
  - exists media_path. split; [reflexivity|]. split; [exact Hp|]. by split.
  - exists ("/api/" +:+ media_path). split; [reflexivity|].
    split; [by destruct media_path|]. by split.
Qed.

(** ** Truncation at the tools *)

Lemma news_view_teaser kvs locale c more s :
  dict_lookup kvs "contents" = Some (VDict ((locale, VDict c) :: more)) ->
  locale <> "" ->
  dict_lookup c "teaser" = Some (VStr s) ->
  field (news_view (VDict kvs)) "teaser" = Some (VStr (str_slice_upto 200 s)).
Proof.
  intros Hcontents Hne Htext. unfold news_view, field, localized.
  rewrite Hcontents. apply String.eqb_neq in Hne. rewrite Hne.
  unfold dict_get at 3. by rewrite Htext.
Qed.

Lemma Forall2_map_self {A B} (P : A -> B -> Prop) (f : A -> B) xs :
  (forall x, In x xs -> P x (f x)) -> Forall2 P xs (map f xs).
Proof.
  induction xs as [|x xs IH]; intros H; cbn [map]; constructor.
  - apply H. by left.
  - apply IH. intros y Hy. apply H. by right.
Qed.

(** C7.  In the output of [get_news] every post shown has as teaser the
    first 200 characters of its teaser, and in the output of [get_page]
    the content is the first 5000 characters of the page's content: a
    teaser of 500 characters comes out with exactly 200, a content of
    10000 with exactly 5000, and text within the bound comes out as it
    is. *)
Theorem truncation depth environ upstream arguments w :
  configured environ = true ->
  (forall body posts n,
     upstream (GET environ (news_path (dict_get arguments "channel_id" VNone))
                 (posts_params (dict_get arguments "limit" (VInt 10))))
     = ReplyJson body ->
     unwrap body = VList posts ->
     dict_get arguments "limit" (VInt 10) = VInt n -> (0 <= n)%Z ->
     forallb post_ok posts = true ->
     exists entries,
       fst (call_tool depth environ upstream "get_news" arguments w)
       = [{| type := "text"; text := dumps (VList entries) (Some 2) |}]
       /\ Forall2
            (fun post entry =>
               forall kvs locale c more s,
                 post = VDict kvs ->
                 dict_lookup kvs "contents" = Some (VDict ((locale, VDict c) :: more)) ->
                 locale <> "" ->
                 dict_lookup c "teaser" = Some (VStr s) ->
                 field entry "teaser" = Some (VStr (str_slice_upto 200 s)))
            (take (Z.to_nat n) posts) entries)
  /\ (forall page_id kvs locale c more s,
        dict_lookup arguments "page_id" = Some page_id ->
        upstream (GET environ ("/api/pages/" +:+ str page_id) None)
        = ReplyJson (VDict kvs) ->
        dict_lookup kvs "contents" = Some (VDict ((locale, VDict c) :: more)) ->
        locale <> "" ->
        dict_lookup c "content" = Some (VStr s) ->
        fst (call_tool depth environ upstream "get_page" arguments w)
        = [{| type := "text";
              text := dumps (VDict [("id", dict_get kvs "id" (VStr ""));
                                    ("title", dict_get c "title" (VStr ""));
                                    ("content", VStr (str_slice_upto 5000 s));
                                    ("locale", VStr locale);
                                    ("updated", dict_get kvs "updatedAt" (VStr ""))])
                        (Some 2) |}])
  /\ (forall s,
        Z.of_nat (String.length (str_slice_upto 200 s))
        = Z.min 200 (Z.of_nat (String.length s))
        /\ (Z.of_nat (String.length s) = 500%Z ->
            Z.of_nat (String.length (str_slice_upto 200 s)) = 200%Z)
        /\ ((Z.of_nat (String.length s) <= 200)%Z -> str_slice_upto 200 s = s))
  /\ (forall s,
        Z.of_nat (String.length (str_slice_upto 5000 s))
        = Z.min 5000 (Z.of_nat (String.length s))
        /\ (Z.of_nat (String.length s) = 10000%Z ->
            Z.of_nat (String.length (str_slice_upto 5000 s)) = 5000%Z)
        /\ ((Z.of_nat (String.length s) <= 5000)%Z -> str_slice_upto 5000 s = s)).
Proof.
  intros Hc. split; [|split; [|split]].
  - intros body posts n Hup Hbody Hlimit Hn Hok.
    exists (map news_view (take (Z.to_nat n) posts)). split.
    + unfold call_tool. rewrite (handle_get_news_gen _ _ _ _ w Hc), Hup.
      cbn [response res_bind]. rewrite Hbody, Hlimit.
      cbn [shown_posts list_slice slice_bound res_bind].
      rewrite (slice_upto_nonneg _ _ Hn).
      rewrite (map_res_total news_entry news_view); [reflexivity|].
      intros p Hp. apply news_entry_ok.
      rewrite forallb_forall in Hok. apply Hok.
      apply list_elem_of_In. apply (subseteq_take (Z.to_nat n) posts).
      by apply list_elem_of_In.
    + apply Forall2_map_self. intros p _ kvs locale c more s -> Hcontents Hne Htext.
      by apply (news_view_teaser kvs locale c more s).
  - intros page_id kvs locale c more s Hid Hup Hcontents Hne Htext.
    unfold call_tool. rewrite (handle_get_page_gen _ _ _ _ w Hc), Hid, Hup.
    cbn [response res_bind].
    by rewrite (page_entry_content _ _ _ _ _ Hcontents Hne Htext).
  - intros s. pose proof (str_slice_upto_length 200 s ltac:(lia)) as Hlen.
    split; [exact Hlen|]. split; [lia|]. apply str_slice_upto_short.
  - intros s. pose proof (str_slice_upto_length 5000 s ltac:(lia)) as Hlen.
    split; [exact Hlen|]. split; [lia|]. apply str_slice_upto_short.
Qed.

Lemma truncation_witness :
  configured Sample.environ = true
  /\ forallb post_ok [Sample.post_with_teaser (Sample.replicate_char 500 "x")] = true
  /\ exists entries,
       fst (call_tool Sample.depth Sample.environ
              (Sample.serve (VList [Sample.post_with_teaser (Sample.replicate_char 500 "x")]))
              "get_news" [] world0)
       = [{| type := "text"; text := dumps (VList entries) (Some 2) |}]
       /\ Forall2
            (fun post entry =>
               forall kvs locale c more s,
                 post = VDict kvs ->
                 dict_lookup kvs "contents" = Some (VDict ((locale, VDict c) :: more)) ->
                 locale <> "" ->
                 dict_lookup c "teaser" = Some (VStr s) ->
                 field entry "teaser" = Some (VStr (str_slice_upto 200 s)))
            (take (Z.to_nat 10)
               [Sample.post_with_teaser (Sample.replicate_char 500 "x")])
            entries.
Proof.
  assert (Hok : forallb post_ok [Sample.post_with_teaser (Sample.replicate_char 500 "x")]
                = true) by (vm_compute; reflexivity).
  split; [reflexivity|]. split; [exact Hok|].
  exact (proj1 (truncation Sample.depth Sample.environ
                  (Sample.serve
                     (VList [Sample.post_with_teaser (Sample.replicate_char 500 "x")]))
                  [] world0 eq_refl)
           (VList [Sample.post_with_teaser (Sample.replicate_char 500 "x")])
           [Sample.post_with_teaser (Sample.replicate_char 500 "x")] 10%Z
           eq_refl eq_refl eq_refl ltac:(lia) Hok).
Defined.

(** ** Beyond the recursion depth *)

(** X16.  A forest of channel trees with more levels than the recursion
    depth left to the walk makes [list_channels] answer with the payload
    of the [RecursionError], after its one request was sent. *)
Theorem list_channels_too_deep depth environ upstream arguments space_id body items w :
  configured environ = true ->
  dict_lookup arguments "space_id" = Some space_id ->
  upstream (GET environ ("/api/spaces/" +:+ str space_id +:+ "/news") None)
  = ReplyJson body ->
  unwrap body = VList items ->
  forallb channel_tree items = true ->
  depth < forest_levels items ->
  call_tool depth environ upstream "list_channels" arguments w
  = ([{| type := "text";
         text := dumps (VDict [("error", VStr "maximum recursion depth exceeded")]) None |}],
     log "Tool list_channels failed"
       (sent w (GET environ ("/api/spaces/" +:+ str space_id +:+ "/news") None))).
Proof.
  intros Hc Hid Hup Hbody Hwf Hdeep. unfold call_tool.
  rewrite (handle_list_channels_gen _ _ _ _ w Hc), Hid, Hup.
  cbn [response res_bind]. rewrite Hbody. unfold _extract_channels.
  rewrite extract_channels_depth_none.
  by rewrite (extract_channels_too_deep _ _ _ Hwf Hdeep).
Qed.

Lemma list_channels_too_deep_witness :
  configured Sample.environ = true
  /\ forallb channel_tree Sample.menu = true
  /\ 2 < forest_levels Sample.menu
  /\ fst (call_tool 2 Sample.environ (Sample.serve (VList Sample.menu)) "list_channels"
            [("space_id", VStr "hq")] world0)
     = [{| type := "text";
           text := dumps (VDict [("error", VStr "maximum recursion depth exceeded")])
                     None |}].
Proof.
  assert (Hdeep : 2 < forest_levels Sample.menu) by (cbn; lia).
  split; [reflexivity|]. split; [reflexivity|]. split; [exact Hdeep|].
  exact (f_equal fst
           (list_channels_too_deep 2 Sample.environ (Sample.serve (VList Sample.menu))
              [("space_id", VStr "hq")] (VStr "hq") (VList Sample.menu) Sample.menu
              world0 eq_refl eq_refl eq_refl eq_refl eq_refl Hdeep)).
Defined.
